(** * Smart-Finance-Tracker: the ledger of [finance_assistant.py]

    A shallow embedding of the classes [FinancialRecord] and [FinanceData]:
    the in-memory record, the text snapshot [finance_data.txt] and the
    [expenses] table of [finance_data.db], followed by the properties of
    the ledger operations.

    Conventions of the embedding.
    - Amounts are whole numbers ([Z]). The program holds them as binary64
      floats; its arithmetic only adds, subtracts, negates and compares,
      and is exact on whole numbers up to [2^53] in magnitude ([exact]).
      A statement that depends on the value of a sum or difference carries
      that range as a hypothesis; [adjust_accounts] gives the arithmetic
      of the adjustment for any kind of number, floats included.
    - A Python [str] is a [list ascii]; a character is a code point below
      256.
    - A Python [dict] keeps insertion order, and the snapshot is written in
      that order, so [expenses] is an association list.
    - [float(text)] and the f-string rendering of a number are the two
      members of the class [Numerals]; every general statement holds for
      any instance, and [decimal_int] is the instance used on examples. *)

From Stdlib Require Import ZArith List Ascii String Bool Lia Permutation.
From Stdlib Require Import DecimalString.
From Stdlib Require PrimFloat.
Import ListNotations.

Local Open Scope Z_scope.

(** ** Python strings *)

Definition str := list ascii.

Definition lit (s : string) : str := list_ascii_of_string s.

Arguments lit : simpl never.

Definition LF : ascii := "010"%char.
Definition CR : ascii := "013"%char.

Module Py.

(** [a == b] on strings. *)
Fixpoint eqb (a b : str) : bool :=
  match a, b with
  | [], [] => true
  | x :: a', y :: b' => Ascii.eqb x y && eqb a' b'
  | _, _ => false
  end.

(** [str.isspace] on one code point below 256: tab, line feed, vertical
    tab, form feed, carriage return, the four separators 28..31, space,
    NEL (133) and the no-break space (160). *)
Definition isspace (c : ascii) : bool :=
  existsb (Ascii.eqb c)
    ["009"; "010"; "011"; "012"; "013"; "028"; "029"; "030"; "031";
     " "; "133"; "160"]%char.

Fixpoint lstrip (s : str) : str :=
  match s with
  | [] => []
  | c :: t => if isspace c then lstrip t else s
  end.

Definition rstrip (s : str) : str := rev (lstrip (rev s)).

(** [s.strip()] *)
Definition strip (s : str) : str := rstrip (lstrip s).

(** [s.startswith(p)] *)
Fixpoint startswith (s p : str) : bool :=
  match p, s with
  | [], _ => true
  | _ :: _, [] => false
  | x :: p', y :: s' => Ascii.eqb x y && startswith s' p'
  end.

(** [s.split(sep)] for a non-empty [sep]: the text is scanned from the left,
    every leftmost occurrence of [sep] closes the current field. [skip]
    counts the characters of a matched separator still to pass over and
    [cur] holds the current field, reversed. *)
Fixpoint split_go (sep : str) (skip : nat) (cur : str) (s : str) : list str :=
  match s with
  | [] => [rev cur]
  | c :: t =>
      match skip with
      | S k => split_go sep k cur t
      | O =>
          if startswith s sep
          then rev cur :: split_go sep (pred (List.length sep)) [] t
          else split_go sep O (c :: cur) t
      end
  end.

Definition split (s sep : str) : list str := split_go sep O [] s.

(** Text mode with universal newlines: on reading, [\r\n] and a lone [\r]
    become [\n]. *)
Fixpoint universal_newlines (s : str) : str :=
  match s with
  | [] => []
  | c :: t =>
      if Ascii.eqb c CR
      then match t with
           | d :: t' =>
               if Ascii.eqb d LF then LF :: universal_newlines t'
               else LF :: universal_newlines t
           | [] => [LF]
           end
      else c :: universal_newlines t
  end.

(** [file.readlines()]: every line keeps its terminating [\n]; a last line
    without one is returned too. *)
Fixpoint readlines_go (cur : str) (s : str) : list str :=
  match s with
  | [] => match cur with [] => [] | _ :: _ => [rev cur] end
  | c :: t =>
      if Ascii.eqb c LF then rev (c :: cur) :: readlines_go [] t
      else readlines_go (c :: cur) t
  end.

Definition readlines (content : str) : list str :=
  readlines_go [] (universal_newlines content).

End Py.

(** ** Numbers in the snapshot *)

(** [py_float] is [float(text)], [None] standing for [ValueError];
    [py_str] is the text an f-string gives for a number. *)
Class Numerals := {
  py_float : str -> option Z;
  py_str : Z -> str
}.

(** Decimal integer literals: what [str] gives for an [int], and the part
    of [float] that reads such a literal back (surrounding whitespace is
    ignored, as [float] does). *)
Definition decimal_str (z : Z) : str :=
  lit (NilZero.string_of_int (Z.to_int z)).

Definition decimal_float (s : str) : option Z :=
  option_map Z.of_int
    (NilZero.int_of_string (string_of_list_ascii (Py.strip s))).

#[export] Instance decimal_int : Numerals :=
  {| py_float := decimal_float; py_str := decimal_str |}.

(** ** The data model *)

(** One entry of a category: [(description, amount)]. *)
Definition item := (str * Z)%type.

(** [self.expenses]: category name to its entries, in insertion order. *)
Definition expenses_dict := list (str * list item).

Record FinanceData := mkFinanceData {
  income : Z;
  savings : Z;
  savings_goal : Z;
  expenses : expenses_dict;
  original_savings : Z;
  deficit : Z
}.

(** A row of the table [expenses (id INTEGER PRIMARY KEY, category TEXT,
    description TEXT, amount REAL)]. *)
Record row := mkRow {
  row_id : Z;
  row_category : str;
  row_description : str;
  row_amount : Z
}.

(** The object together with what it persists to: the text file (absent
    until first written) and the table. *)
Record World := mkWorld {
  self : FinanceData;
  text_file : option str;
  database : list row
}.

Definition set_income (v : Z) (d : FinanceData) : FinanceData :=
  mkFinanceData v (savings d) (savings_goal d) (expenses d)
    (original_savings d) (deficit d).

Definition set_savings (v : Z) (d : FinanceData) : FinanceData :=
  mkFinanceData (income d) v (savings_goal d) (expenses d)
    (original_savings d) (deficit d).

Definition set_goal (v : Z) (d : FinanceData) : FinanceData :=
  mkFinanceData (income d) (savings d) v (expenses d)
    (original_savings d) (deficit d).

Definition set_expenses (e : expenses_dict) (d : FinanceData) : FinanceData :=
  mkFinanceData (income d) (savings d) (savings_goal d) e
    (original_savings d) (deficit d).

Definition set_original_savings (v : Z) (d : FinanceData) : FinanceData :=
  mkFinanceData (income d) (savings d) (savings_goal d) (expenses d)
    v (deficit d).

Definition set_deficit (v : Z) (d : FinanceData) : FinanceData :=
  mkFinanceData (income d) (savings d) (savings_goal d) (expenses d)
    (original_savings d) v.

Definition with_self (d : FinanceData) (w : World) : World :=
  mkWorld d (text_file w) (database w).

(** ** The dictionary of expenses *)

(** [if category not in self.expenses: self.expenses[category] = []]
    followed by [self.expenses[category].append(entry)]: an existing
    category keeps its place and grows at the end, a new one is added
    last. *)
Fixpoint append_item (category : str) (entry : item) (e : expenses_dict)
  : expenses_dict :=
  match e with
  | [] => [(category, [entry])]
  | (k, items) :: rest =>
      if Py.eqb k category then (k, items ++ [entry]) :: rest
      else (k, items) :: append_item category entry rest
  end.

(** [self.expenses[category]], [None] for a missing key. *)
Fixpoint lookup (category : str) (e : expenses_dict) : option (list item) :=
  match e with
  | [] => None
  | (k, items) :: rest =>
      if Py.eqb k category then Some items else lookup category rest
  end.

(** The entries in the order [for category, items in self.expenses.items():
    for desc, amount in items] visits them. *)
Definition flatten (e : expenses_dict) : list (str * str * Z) :=
  flat_map (fun ci => map (fun da => (fst ci, fst da, snd da)) (snd ci)) e.

(** [sum(amount for items in self.expenses.values() for _, amount in items)] *)
Definition total_expenses (e : expenses_dict) : Z :=
  fold_left Z.add (map snd (flatten e)) 0.

(** ** FinancialRecord *)

(** [save_data] is [pass] in [FinancialRecord] and [FinanceData] does not
    override it. *)
Definition save_data (w : World) : World := w.

Definition add_income (amount : Z) (w : World) : World :=
  if 0 <? amount
  then save_data (with_self (set_income (income (self w) + amount) (self w)) w)
  else w.

Definition set_savings_goal (goal : Z) (w : World) : World :=
  if 0 <=? goal
  then save_data (with_self (set_goal goal (self w)) w)
  else w.

(** ** FinanceData *)

Definition adjust_savings_if_needed (w : World) : World :=
  let d := self w in
  let budget := income d - total_expenses (expenses d) in
  if budget <? 0 then
    let d1 := set_deficit (- budget) d in
    let d2 := set_savings (savings d1 - deficit d1) d1 in
    let d3 := if savings d2 <? 0 then set_savings 0 d2 else d2 in
    save_data (with_self d3 w)
  else w.

(** [INSERT INTO expenses (category, description, amount)]: the key of the
    new row is one more than the largest key in the table. *)
Definition next_id (db : list row) : Z :=
  fold_left Z.max (map row_id db) 0 + 1.

Definition db_insert (category description : str) (amount : Z)
  (db : list row) : list row :=
  db ++ [mkRow (next_id db) category description amount].

Definition save_expense_to_db (category description : str) (amount : Z)
  (w : World) : World :=
  mkWorld (self w) (text_file w)
    (db_insert category description amount (database w)).

(** The lines [save_data_to_file] writes, each without its [\n]. *)
Definition expense_line `{Numerals} (e : str * str * Z) : str :=
  match e with
  | (category, desc, amount) =>
      category ++ lit ", " ++ desc ++ lit ", " ++ py_str amount
  end.

Definition snapshot_lines `{Numerals} (d : FinanceData) : list str :=
  [ lit "Income: " ++ py_str (income d);
    lit "Savings: " ++ py_str (savings d);
    lit "SavingsGoal: " ++ py_str (savings_goal d);
    lit "Expenses:" ]
  ++ map expense_line (flatten (expenses d)).

Definition snapshot_text `{Numerals} (d : FinanceData) : str :=
  List.concat (map (fun l => l ++ [LF]) (snapshot_lines d)).

(** [open(self.text_file, 'w')]: the file is replaced; the text is written
    as it is ([\n] is the line separator of the system). *)
Definition save_data_to_file `{Numerals} (w : World) : World :=
  mkWorld (self w) (Some (snapshot_text (self w))) (database w).

Definition add_expense `{Numerals} (category description : str) (amount : Z)
  (save_to_db : bool) (w : World) : World :=
  if 0 <? amount then
    let w1 :=
      with_self
        (set_expenses
           (append_item category (description, amount) (expenses (self w)))
           (self w)) w in
    let w2 :=
      if save_to_db then save_expense_to_db category description amount w1
      else w1 in
    let w3 := adjust_savings_if_needed w2 in
    save_data_to_file w3
  else w.

(** ** Loading the snapshot *)

(** The only exception the parsing raises: [float] on a text that is not a
    number, and unpacking [split(", ")] into three names when it has another
    number of fields. *)
Inductive exn := ValueError.

(** What a call leaves behind: the world after a normal return, or the
    exception and the world at the time it left the method. *)
Inductive outcome :=
| Returned (w : World)
| Raised (e : exn) (w : World).

(** The variables of the loop of [read_data_from_file]: the flag, the
    object, and the rows the cursor has inserted since [DELETE FROM
    expenses]. *)
Record loop_state := mkLoop {
  in_expenses_section : bool;
  obj : FinanceData;
  cursor : list row
}.

(** [line.split(":")[1].strip()]; a line that starts with one of the
    prefixes has a colon, so index 1 exists. *)
Definition header_value (line : str) : str :=
  Py.strip (nth 1 (Py.split line (lit ":")) []).

(** The body of [for line in content]. *)
Definition read_line `{Numerals} (st : loop_state) (line : str)
  : exn + loop_state :=
  if Py.startswith line (lit "Income:") then
    match py_float (header_value line) with
    | Some v =>
        inr (mkLoop (in_expenses_section st) (set_income v (obj st)) (cursor st))
    | None => inl ValueError
    end
  else if Py.startswith line (lit "Savings:") then
    match py_float (header_value line) with
    | Some v =>
        inr (mkLoop (in_expenses_section st) (set_savings v (obj st)) (cursor st))
    | None => inl ValueError
    end
  else if Py.startswith line (lit "SavingsGoal:") then
    match py_float (header_value line) with
    | Some v =>
        inr (mkLoop (in_expenses_section st) (set_goal v (obj st)) (cursor st))
    | None => inl ValueError
    end
  else if Py.startswith line (lit "Expenses:") then
    inr (mkLoop true (obj st) (cursor st))
  else if in_expenses_section st && negb (Py.eqb (Py.strip line) []) then
    match Py.split (Py.strip line) (lit ", ") with
    | [category; description; amount] =>
        match py_float amount with
        | Some a =>
            inr (mkLoop true
                   (set_expenses
                      (append_item category (description, a)
                         (expenses (obj st)))
                      (obj st))
                   (db_insert category description a (cursor st)))
        | None => inl ValueError
        end
    | _ => inl ValueError
    end
  else inr st.

(** The loop: the first exception ends it, with the state reached so far. *)
Fixpoint read_lines `{Numerals} (st : loop_state) (lines : list str)
  : (exn * loop_state) + loop_state :=
  match lines with
  | [] => inr st
  | line :: rest =>
      match read_line st line with
      | inl e => inl (e, st)
      | inr st' => read_lines st' rest
      end
  end.

(** [read_data_from_file]. The connection is a context manager: it commits
    when the block is left normally, which is also the case when
    [FileNotFoundError] is caught inside it, and rolls the [DELETE] back
    when an exception leaves the block. *)
Definition read_data_from_file `{Numerals} (w : World) : outcome :=
  match text_file w with
  | None => Returned (mkWorld (self w) None [])
  | Some content =>
      match read_lines (mkLoop false (self w) []) (Py.readlines content) with
      | inr st =>
          Returned
            (mkWorld (set_original_savings (savings (obj st)) (obj st))
               (Some content) (cursor st))
      | inl (e, st) => Raised e (mkWorld (obj st) (Some content) (database w))
      end
  end.

(** [FinanceData.__init__]: the defaults, then the load. The table is
    created only if it does not exist, which leaves its rows alone. *)
Definition fresh : FinanceData := mkFinanceData 0 0 0 [] 0 0.

Definition FinanceData_init `{Numerals} (w : World) : outcome :=
  read_data_from_file (with_self fresh w).

(** ** What the claims speak of *)

(** The rows of a table without their keys. *)
Definition row_entry (r : row) : str * str * Z :=
  (row_category r, row_description r, row_amount r).

Definition rows_of (db : list row) : list (str * str * Z) := map row_entry db.

(** The world a process starts from when nothing was ever persisted. *)
Definition empty_world : World := mkWorld fresh None [].

(** The mutations of the ledger that take no file as input. *)
Inductive mutation :=
| AddIncome (amount : Z)
| SetSavingsGoal (goal : Z)
| AddExpense (category description : str) (amount : Z) (save_to_db : bool)
| AdjustSavingsIfNeeded.

Definition run `{Numerals} (m : mutation) (w : World) : World :=
  match m with
  | AddIncome amount => add_income amount w
  | SetSavingsGoal goal => set_savings_goal goal w
  | AddExpense category description amount save_to_db =>
      add_expense category description amount save_to_db w
  | AdjustSavingsIfNeeded => adjust_savings_if_needed w
  end.

Definition world_of (o : outcome) : World :=
  match o with
  | Returned w => w
  | Raised _ w => w
  end.

(** The entries of a category, none for a missing key. *)
Definition get (category : str) (e : expenses_dict) : list item :=
  match lookup category e with
  | Some items => items
  | None => []
  end.

(** The entries of one category among rows or parsed lines, in order. *)
Definition entries_of (category : str) (l : list (str * str * Z)) : list item :=
  map (fun e => (snd (fst e), snd e))
    (filter (fun e => Py.eqb (fst (fst e)) category) l).

(** *** The expense lines of a snapshot *)

(** A line that one of the first three branches of the loop takes. *)
Definition is_field_line (line : str) : bool :=
  Py.startswith line (lit "Income:")
  || Py.startswith line (lit "Savings:")
  || Py.startswith line (lit "SavingsGoal:").

(** The lines of a snapshot that are expense lines: those after a line
    [Expenses:] that carry none of the four prefixes and are not blank.
    [flag] tells whether an [Expenses:] line was already passed. *)
Fixpoint expense_lines (flag : bool) (lines : list str) : list str :=
  match lines with
  | [] => []
  | line :: rest =>
      if is_field_line line then expense_lines flag rest
      else if Py.startswith line (lit "Expenses:") then expense_lines true rest
      else if flag && negb (Py.eqb (Py.strip line) [])
           then line :: expense_lines true rest
           else expense_lines flag rest
  end.

(** An expense line read as [category, description, amount]; [None] when
    it has another number of fields or its amount is not a number. *)
Definition parse_expense `{Numerals} (line : str) : option (str * str * Z) :=
  match Py.split (Py.strip line) (lit ", ") with
  | [category; description; amount] =>
      match py_float amount with
      | Some a => Some (category, description, a)
      | None => None
      end
  | _ => None
  end.

(** The well-formed expense lines of a snapshot, parsed. *)
Definition file_entries `{Numerals} (flag : bool) (lines : list str)
  : list (str * str * Z) :=
  flat_map (fun l => match parse_expense l with Some e => [e] | None => [] end)
    (expense_lines flag lines).

(** The effect of one parsed expense line on the dictionary and on the
    table. *)
Definition append_entry (e : expenses_dict) (x : str * str * Z) : expenses_dict :=
  append_item (fst (fst x)) (snd (fst x), snd x) e.

Definition insert_entry (db : list row) (x : str * str * Z) : list row :=
  db_insert (fst (fst x)) (snd (fst x)) (snd x) db.

(** The lines the load reads: none when the file is missing. *)
Definition file_lines (w : World) : list str :=
  match text_file w with
  | Some content => Py.readlines content
  | None => []
  end.

(** The flag of the loop after a line. *)
Definition next_flag (flag : bool) (line : str) : bool :=
  if is_field_line line then flag
  else if Py.startswith line (lit "Expenses:") then true
  else flag.

(** *** Ledgers whose snapshot reads back *)

(** [", " in s] *)
Fixpoint has_separator (s : str) : bool :=
  match s with
  | [] => false
  | c :: t =>
      (Ascii.eqb c "," && match t with d :: _ => Ascii.eqb d " " | [] => false end)
      || has_separator t
  end.

Definition one_line (s : str) : bool :=
  forallb (fun c => negb (Ascii.eqb c LF) && negb (Ascii.eqb c CR)) s.

Definition no_leading_space (s : str) : bool :=
  match s with
  | [] => true
  | c :: _ => negb (Py.isspace c)
  end.

(** A description that fits on a line and holds no separator. *)
Definition description_ok (s : str) : bool :=
  one_line s && negb (has_separator s).

(** A category is moreover not taken for a field line or for blank space at
    the start of its line. *)
Definition category_ok (s : str) : bool :=
  description_ok s && no_leading_space s
  && negb (is_field_line s) && negb (Py.startswith s (lit "Expenses:")).

(** A character that is neither blank nor a colon nor a comma. *)
Definition token_char (c : ascii) : bool :=
  negb (Py.isspace c) && negb (Ascii.eqb c ":") && negb (Ascii.eqb c ",").

(** A number whose text is not empty, has no blank, colon or comma, and is
    read back as the number. *)
Definition numeral_ok `{Numerals} (z : Z) : bool :=
  match py_float (py_str z) with Some v => v =? z | None => false end
  && negb (Py.eqb (py_str z) [])
  && forallb token_char (py_str z).

(** [category in self.expenses] *)
Definition mem (category : str) (e : expenses_dict) : bool :=
  existsb (fun ci => Py.eqb (fst ci) category) e.

(** What a dictionary built by [add_expense] and the load always is: no
    key twice, no category without an entry. *)
Fixpoint well_keyed (e : expenses_dict) : bool :=
  match e with
  | [] => true
  | (k, items) :: rest =>
      negb (mem k rest) && negb (Nat.eqb (List.length items) 0)
      && well_keyed rest
  end.

Definition expenses_ok `{Numerals} (e : expenses_dict) : bool :=
  well_keyed e
  && forallb (fun ci =>
       category_ok (fst ci)
       && forallb (fun da => description_ok (fst da) && numeral_ok (snd da))
            (snd ci)) e.

Definition snapshot_ok `{Numerals} (d : FinanceData) : bool :=
  numeral_ok (income d) && numeral_ok (savings d)
  && numeral_ok (savings_goal d) && expenses_ok (expenses d).

(** *** Ledgers and snapshots used as examples *)

Definition ledger (income savings : Z) : World :=
  mkWorld (mkFinanceData income savings 0 [] 0 0) None [].

Definition rent (w : World) : World :=
  add_expense (lit "Rent") (lit "Monthly Rent") 1000 true w.

Definition groceries : expenses_dict :=
  [(lit "Groceries", [(lit "Milk", 3); (lit "Bread", 2)]);
   (lit "Transport", [(lit "Gas", 60)])].

Definition stocked : World :=
  mkWorld (mkFinanceData 4500 1500 6000 groceries 1500 0) None [].

Definition snapshot (lines : list string) : str :=
  List.concat (map (fun l => lit l ++ [LF]) lines).

(** ** The rest of the program *)

(** *** The field lines of a snapshot *)

(** The branch of the loop a line takes, in the order the loop tests. *)
Inductive line_kind := IncomeLine | SavingsLine | GoalLine | SectionLine | OtherLine.

Definition kind_of (line : str) : line_kind :=
  if Py.startswith line (lit "Income:") then IncomeLine
  else if Py.startswith line (lit "Savings:") then SavingsLine
  else if Py.startswith line (lit "SavingsGoal:") then GoalLine
  else if Py.startswith line (lit "Expenses:") then SectionLine
  else OtherLine.

Definition kind_eqb (a b : line_kind) : bool :=
  match a, b with
  | IncomeLine, IncomeLine | SavingsLine, SavingsLine | GoalLine, GoalLine
  | SectionLine, SectionLine | OtherLine, OtherLine => true
  | _, _ => false
  end.

(** The value a field has after the lines were read without exception: the
    number of the last line of its kind, or [v] when there is none. *)
Definition last_value `{Numerals} (k : line_kind) (lines : list str) (v : Z) : Z :=
  fold_left
    (fun acc line =>
       if kind_eqb (kind_of line) k
       then match py_float (header_value line) with
            | Some x => x
            | None => acc
            end
       else acc)
    lines v.

(** *** The summary and the charts *)

(** The text of [f"{x:.2f}"]. *)
Class TwoDecimals := { py_fixed2 : Z -> str }.

(** For an [int], [:.2f] gives the decimal literal followed by [.00]. *)
#[export] Instance decimal_fixed2 : TwoDecimals :=
  {| py_fixed2 := fun z => decimal_str z ++ lit ".00" |}.

(** [max(self.income - total_expenses, 0)] *)
Definition remaining_budget (d : FinanceData) : Z :=
  Z.max (income d - total_expenses (expenses d)) 0.

(** The lines [display_financial_summary] prints, one per [print]. *)
Definition display_financial_summary `{TwoDecimals} (d : FinanceData) : list str :=
  [ LF :: lit "Financial Summary:";
    lit "Total Income: $" ++ py_fixed2 (income d);
    lit "Original Savings: $" ++ py_fixed2 (original_savings d);
    lit "Current Savings: $" ++ py_fixed2 (savings d);
    lit "Expenses:" ]
  ++ map (fun e => match e with
                   | (category, desc, amount) =>
                       category ++ lit ": " ++ desc ++ lit " - $"
                       ++ py_fixed2 amount
                   end)
       (flatten (expenses d))
  ++ [ lit "Total Expenses: $" ++ py_fixed2 (total_expenses (expenses d));
       lit "Deficit: $" ++ py_fixed2 (deficit d);
       lit "Remaining Budget: $" ++ py_fixed2 (remaining_budget d);
       lit "Savings Goal: $" ++ py_fixed2 (savings_goal d) ++ [LF] ].

(** One [sns.barplot] call per category: the amounts and the labels
    [f"{category}: {desc}"]. *)
Definition bar_plots (e : expenses_dict) : list (list Z * list str) :=
  map (fun ci => (map snd (snd ci),
                  map (fun da => fst ci ++ lit ": " ++ fst da) (snd ci))) e.

(** [[(k, v) for k, v in data.items() if v > 0]] *)
Definition pie_entries (d : FinanceData) : list (str * Z) :=
  filter (fun kv => 0 <? snd kv)
    [ (lit "Remaining Income", remaining_budget d);
      (lit "Savings", savings d);
      (lit "Deficit", deficit d) ].

(** [labels, sizes = zip(...)] over the unpacked entries: with no entry,
    [zip()] yields nothing and the unpacking raises [ValueError]. *)
Definition pie_chart (d : FinanceData) : exn + (list str * list Z) :=
  match pie_entries d with
  | [] => inl ValueError
  | e :: l => inr (map fst (e :: l), map snd (e :: l))
  end.

(** [visualize_expenses]: the bar chart is shown first, then the pie chart
    is computed and shown. *)
Definition visualize_expenses (d : FinanceData)
  : list (list Z * list str) * (exn + (list str * list Z)) :=
  (bar_plots (expenses d), pie_chart d).

(** The lines [print_database_contents] prints. The key of a row is an
    [int]. *)
Definition print_database_contents `{Numerals} (db : list row) : list str :=
  (LF :: lit "Database Contents:")
  :: match db with
     | [] => [lit "No expenses recorded in the database."]
     | _ :: _ =>
         map (fun r =>
                lit "ID: " ++ decimal_str (row_id r)
                ++ lit ", Category: " ++ row_category r
                ++ lit ", Description: " ++ row_description r
                ++ lit ", Amount: $" ++ py_str (row_amount r)) db
     end.

(** *** The menu *)

(** What a session shows: a printed line, the prompt of an [input], a
    chart. *)
Inductive event :=
| Print (text : str)
| Input (prompt : str)
| ShowBars (bars : list (list Z * list str))
| ShowPie (labels : list str) (sizes : list Z).

(** How a run of [main] ends: choice 7, [EOFError] of an [input] with
    nothing left to read, the [ValueError] of the pie chart, or the
    [ValueError] of the load in the constructor. *)
Inductive ending := Goodbye | EndOfInput | ChartFailed | LoadFailed.

Record session := mkSession {
  ending_of : ending;
  final : World;
  output : list event
}.

Definition after (evs : list event) (s : session) : session :=
  mkSession (ending_of s) (final s) (evs ++ output s).

Definition menu : list event :=
  [ Print (LF :: lit "Personal Finance Assistant");
    Print (lit "1. Add Income");
    Print (lit "2. Add Expense");
    Print (lit "3. Set Savings Goal");
    Print (lit "4. Display Financial Summary");
    Print (lit "5. Visualize Expenses");
    Print (lit "6. Print Database Contents");
    Print (lit "7. Exit");
    Input (lit "Enter your choice: ") ].

Definition invalid_input : event :=
  Print (lit "Invalid input. Please enter a numeric value.").

(** The [while True] loop of [main]; [inputs] are the lines typed, each as
    [input] returns it. Every turn reads at least the choice. *)
Fixpoint menu_loop `{Numerals} `{TwoDecimals} (inputs : list str) (w : World)
  : session :=
  match inputs with
  | [] => mkSession EndOfInput w menu
  | choice :: rest =>
      after menu
        (if Py.eqb choice (lit "1") then
           match rest with
           | [] => mkSession EndOfInput w [Input (lit "Enter the income amount: ")]
           | text :: rest1 =>
               after [Input (lit "Enter the income amount: ")]
                 match py_float text with
                 | Some amount =>
                     after [Print (lit "Income added successfully.")]
                       (menu_loop rest1 (add_income amount w))
                 | None => after [invalid_input] (menu_loop rest1 w)
                 end
           end
         else if Py.eqb choice (lit "2") then
           match rest with
           | [] => mkSession EndOfInput w [Input (lit "Enter expense category: ")]
           | category :: rest1 =>
               after [Input (lit "Enter expense category: ")]
                 match rest1 with
                 | [] =>
                     mkSession EndOfInput w
                       [Input (lit "Enter expense description: ")]
                 | description :: rest2 =>
                     after [Input (lit "Enter expense description: ")]
                       match rest2 with
                       | [] =>
                           mkSession EndOfInput w
                             [Input (lit "Enter the expense amount: ")]
                       | text :: rest3 =>
                           after [Input (lit "Enter the expense amount: ")]
                             match py_float text with
                             | Some amount =>
                                 after [Print (lit "Expense added successfully.")]
                                   (menu_loop rest3
                                      (add_expense category description amount
                                         true w))
                             | None => after [invalid_input] (menu_loop rest3 w)
                             end
                       end
                 end
           end
         else if Py.eqb choice (lit "3") then
           match rest with
           | [] => mkSession EndOfInput w [Input (lit "Enter your savings goal: ")]
           | text :: rest1 =>
               after [Input (lit "Enter your savings goal: ")]
                 match py_float text with
                 | Some goal =>
                     after [Print (lit "Savings goal set successfully.")]
                       (menu_loop rest1 (set_savings_goal goal w))
                 | None => after [invalid_input] (menu_loop rest1 w)
                 end
           end
         else if Py.eqb choice (lit "4") then
           after (map Print (display_financial_summary (self w)))
             (menu_loop rest w)
         else if Py.eqb choice (lit "5") then
           match visualize_expenses (self w) with
           | (bars, inr (labels, sizes)) =>
               after [ShowBars bars; ShowPie labels sizes] (menu_loop rest w)
           | (bars, inl _) => mkSession ChartFailed w [ShowBars bars]
           end
         else if Py.eqb choice (lit "6") then
           after (map Print (print_database_contents (database w)))
             (menu_loop rest w)
         else if Py.eqb choice (lit "7") then
           mkSession Goodbye w [Print (lit "Goodbye!")]
         else
           after [Print (lit "Invalid choice. Please choose a valid option.")]
             (menu_loop rest w))
  end.

(** [main]: the object is built, which loads the snapshot, then the menu
    runs. *)
Definition main `{Numerals} `{TwoDecimals} (inputs : list str) (w : World)
  : session :=
  match FinanceData_init w with
  | Returned w1 => menu_loop inputs w1
  | Raised _ w1 => mkSession LoadFailed w1 []
  end.

(** ** The numbers of the program *)

(** The embedding above holds amounts as whole numbers; the program holds
    them as binary64 floats (every number read from the file or typed at
    the menu goes through [float]). A whole number between [-2^53] and
    [2^53] is a float, and a sum or a difference of two such numbers that
    lies in that range again is computed by the float operation without
    rounding. [exact] is that range. *)
Definition exact (z : Z) : Prop :=
  - 9007199254740992 <= z <= 9007199254740992.   (* 2^53 *)

(** The amounts in the order [sum] adds them. *)
Definition amounts (e : expenses_dict) : list Z := map snd (flatten e).

(** Every term and every partial sum of the left-to-right sum started at
    [acc] is exact: the float sum is then the sum of the whole numbers. *)
Fixpoint sums_exact_from (acc : Z) (l : list Z) : Prop :=
  exact acc
  /\ match l with
     | [] => True
     | x :: t => exact x /\ sums_exact_from (acc + x) t
     end.

Definition sums_exact (e : expenses_dict) : Prop :=
  sums_exact_from 0 (amounts e).

(** The operations [adjust_savings_if_needed] uses, for any kind of
    number. *)
Class Number (N : Type) := {
  num_zero : N;
  num_add : N -> N -> N;
  num_sub : N -> N -> N;
  num_opp : N -> N;
  num_ltb : N -> N -> bool
}.

#[export] Instance whole_number : Number Z :=
  {| num_zero := 0; num_add := Z.add; num_sub := Z.sub; num_opp := Z.opp;
     num_ltb := Z.ltb |}.

(** The part of the object the adjustment reads and writes, with the
    amounts in the order of the sum. *)
Record accounts (N : Type) := mkAccounts {
  acc_income : N;
  acc_savings : N;
  acc_deficit : N;
  acc_amounts : list N
}.

Arguments mkAccounts {N}.
Arguments acc_income {N}.
Arguments acc_savings {N}.
Arguments acc_deficit {N}.
Arguments acc_amounts {N}.

(** [adjust_savings_if_needed], lines 146 to 152, over any kind of
    number; [sum] starts from 0 and adds the amounts in order. *)
Definition adjust_accounts {N : Type} `{Number N} (a : accounts N) : accounts N :=
  let total_expenses := fold_left num_add (acc_amounts a) num_zero in
  let budget := num_sub (acc_income a) total_expenses in
  if num_ltb budget num_zero then
    let deficit := num_opp budget in
    let savings := num_sub (acc_savings a) deficit in
    mkAccounts (acc_income a)
      (if num_ltb savings num_zero then num_zero else savings)
      deficit (acc_amounts a)
  else a.

Definition accounts_of (d : FinanceData) : accounts Z :=
  mkAccounts (income d) (savings d) (deficit d) (amounts (expenses d)).

(** The numbers as the program has them: binary64 floats. *)
Module Binary64.

Import PrimFloat.

#[local] Set Warnings "-inexact-float".

#[export] Instance number : Number float :=
  {| num_zero := 0%float; num_add := add; num_sub := sub; num_opp := opp;
     num_ltb := ltb |}.

Definition adjust (a : accounts float) : accounts float := adjust_accounts a.

(** Savings of 100.0, no income, one expense of 0.1. *)
Definition hundred : float := 100%float.
Definition tenth : float := 0.1%float.
Definition two : float := 2%float.
Definition small_shortfall : accounts float :=
  mkAccounts 0%float hundred 0%float [tenth].

(** Income 500.0, savings 2000.0, one expense of 1000.0. *)
Definition five_hundred : float := 500%float.
Definition thousand : float := 1000%float.
Definition rent_shortfall : accounts float :=
  mkAccounts five_hundred 2000%float 0%float [thousand].

End Binary64.

(** *** Snapshots that load *)



(** A ledger with a category that starts like the section line, and a
    description that holds the separator. *)
Definition misfiled : World :=
  mkWorld
    (mkFinanceData 10 5 0
       [(lit "Expenses: misc", [(lit "a, b", 5)]);
        (lit "Food", [(lit "Bread", 2)])] 5 0)
    None [].

(** * Properties *)

(** ** Strings *)

Lemma eqb_eq (a b : str) : Py.eqb a b = true <-> a = b.
Proof.
  revert b; induction a as [|x a IH]; intros [|y b]; simpl; split;
    try congruence; try reflexivity.
  - intros E. apply andb_prop in E as [E1 E2].
    apply Ascii.eqb_eq in E1. apply IH in E2. congruence.
  - intros E. injection E as -> ->.
    rewrite Ascii.eqb_refl. simpl. now apply IH.
Qed.

Lemma eqb_refl (a : str) : Py.eqb a a = true.
Proof. now apply eqb_eq. Qed.

Lemma eqb_neq (a b : str) : Py.eqb a b = false <-> a <> b.
Proof.
  split.
  - intros E ->. rewrite eqb_refl in E. discriminate.
  - intros N. destruct (Py.eqb a b) eqn:E; [|reflexivity].
    apply eqb_eq in E. contradiction.
Qed.

(** ** The arithmetic of the ledger *)

Lemma total_expenses_single (c d : str) (a : Z) :
  total_expenses [(c, [(d, a)])] = a.
Proof. reflexivity. Qed.

(** What one call of [adjust_savings_if_needed] does, by cases on the
    budget. *)
Lemma adjust_short (w : World) :
  income (self w) < total_expenses (expenses (self w)) ->
  let w' := adjust_savings_if_needed w in
  deficit (self w') = total_expenses (expenses (self w)) - income (self w)
  /\ savings (self w')
     = Z.max (savings (self w)
              - (total_expenses (expenses (self w)) - income (self w))) 0
  /\ income (self w') = income (self w)
  /\ expenses (self w') = expenses (self w)
  /\ savings_goal (self w') = savings_goal (self w).
Proof.
  intros Hlt. unfold adjust_savings_if_needed, save_data. cbv zeta.
  destruct (Z.ltb_spec (income (self w) - total_expenses (expenses (self w))) 0);
    [|lia].
  cbn [set_deficit set_savings savings deficit income expenses savings_goal].
  match goal with
  | |- context [if ?b then _ else _] => destruct (Z.ltb_spec0 (savings (self w) - - (income (self w) - total_expenses (expenses (self w)))) 0)
  end; simpl; repeat split; lia.
Qed.

Lemma adjust_covered (w : World) :
  total_expenses (expenses (self w)) <= income (self w) ->
  adjust_savings_if_needed w = w.
Proof.
  intros Hle. unfold adjust_savings_if_needed. cbv zeta.
  destruct (Z.ltb_spec (income (self w) - total_expenses (expenses (self w))) 0);
    [lia|reflexivity].
Qed.

Lemma adjust_savings_nonneg (w : World) :
  0 <= savings (self w) -> 0 <= savings (self (adjust_savings_if_needed w)).
Proof.
  intros Hs.
  destruct (Z_lt_le_dec (income (self w)) (total_expenses (expenses (self w))))
    as [Hlt|Hle].
  - destruct (adjust_short w Hlt) as (_ & -> & _). lia.
  - now rewrite adjust_covered.
Qed.

Lemma adjust_self (w v : World) :
  self w = self v ->
  self (adjust_savings_if_needed w) = self (adjust_savings_if_needed v).
Proof.
  intros E. unfold adjust_savings_if_needed, save_data, with_self. cbv zeta.
  rewrite E. now destruct (_ <? 0); [destruct (_ <? 0)|].
Qed.

Lemma add_expense_self `{Numerals} (c d : str) (a : Z) (flag : bool) (w : World) :
  0 < a ->
  self (add_expense c d a flag w)
  = self (adjust_savings_if_needed
            (with_self (set_expenses (append_item c (d, a) (expenses (self w)))
                          (self w)) w)).
Proof.
  intros Ha. unfold add_expense.
  destruct (Z.ltb_spec 0 a); [|lia].
  unfold save_data_to_file. cbn [self].
  apply adjust_self. now destruct flag.
Qed.

Lemma add_expense_ignored `{Numerals} (c d : str) (a : Z) (flag : bool) (w : World) :
  a <= 0 -> add_expense c d a flag w = w.
Proof.
  intros Ha. unfold add_expense. destruct (Z.ltb_spec 0 a); [lia|reflexivity].
Qed.

(** ** The ledger in memory *)

(** C1, as the code has it: on a ledger without expenses, with income 500
    and savings a whole number [S] in the exact range,
    [add_expense("Rent", "Monthly Rent", 1000)] followed by
    [adjust_savings_if_needed] leaves a deficit of 500 and savings of
    [max(S - 1000, 0)]: the shortfall of 500 is taken once inside
    [add_expense] and once more by the explicit call. Within the exact
    range both subtractions are computed without rounding, and a
    difference below 0 is replaced by 0 whatever its rounding. *)
Theorem rent_then_adjust `{Numerals} (w : World) (S : Z) (flag : bool) :
  expenses (self w) = [] ->
  income (self w) = 500 ->
  savings (self w) = S ->
  exact S ->
  let w' :=
    adjust_savings_if_needed
      (add_expense (lit "Rent") (lit "Monthly Rent") 1000 flag w) in
  deficit (self w') = 500 /\ savings (self w') = Z.max (S - 1000) 0.
Proof.
  intros He Hi Hs _ w'.
  set (w1 := add_expense (lit "Rent") (lit "Monthly Rent") 1000 flag w) in *.
  assert (E1 : self w1
               = self (adjust_savings_if_needed
                         (with_self
                            (set_expenses
                               [(lit "Rent", [(lit "Monthly Rent", 1000)])]
                               (self w)) w))).
  { unfold w1. rewrite add_expense_self by lia. now rewrite He. }
  set (w0 := with_self _ w) in E1.
  assert (Hlt0 : income (self w0) < total_expenses (expenses (self w0))).
  { unfold w0. cbn [with_self self set_expenses income expenses].
    rewrite total_expenses_single. lia. }
  destruct (adjust_short w0 Hlt0) as (_ & S1 & I1 & X1 & _).
  cbv zeta in S1, I1, X1. rewrite <- E1 in S1, I1, X1.
  unfold w0 in S1, I1, X1.
  cbn [with_self self set_expenses income expenses savings] in S1, I1, X1.
  rewrite total_expenses_single in S1.
  assert (Hlt1 : income (self w1) < total_expenses (expenses (self w1))).
  { rewrite I1, X1, total_expenses_single. lia. }
  destruct (adjust_short w1 Hlt1) as (D2 & S2 & _).
  cbv zeta in D2, S2. fold w' in D2, S2.
  rewrite D2, S2, S1, I1, X1, total_expenses_single. lia.
Qed.

Lemma rent_then_adjust_witness :
  let w' := adjust_savings_if_needed (rent (ledger 500 2000)) in
  deficit (self w') = 500 /\ savings (self w') = Z.max (2000 - 1000) 0.
Proof.
  apply (rent_then_adjust (ledger 500 2000) 2000 true);
    try reflexivity. unfold exact. lia.
Defined.

(** C1, as the claim words it, fails with savings of 2000: it promises
    [max(2000 - 500, 0) = 1500] and the ledger holds 1000. *)
Lemma rent_then_adjust_not_once :
  let w' := adjust_savings_if_needed (rent (ledger 500 2000)) in
  ~ (deficit (self w') = 500 /\ savings (self w') = Z.max (2000 - 500) 0).
Proof. cbv zeta. intros [_ E]. vm_compute in E. discriminate. Qed.

(** C2, on the code: after a deficit of 1000 was recorded, income of 2000
    covers the expenses, and [adjust_savings_if_needed] as well as a
    further [add_expense] leave the recorded deficit at 1000, where
    [max(0, total - income)] is 0. *)
Theorem deficit_left_stale :
  let w := add_income 2000 (rent empty_world) in
  let w1 := adjust_savings_if_needed w in
  let w2 := add_expense (lit "Groceries") (lit "Bread") 2 true w in
  total_expenses (expenses (self w1)) <= income (self w1)
  /\ deficit (self w1) = 1000
  /\ Z.max 0 (total_expenses (expenses (self w1)) - income (self w1)) = 0
  /\ total_expenses (expenses (self w2)) <= income (self w2)
  /\ deficit (self w2) = 1000.
Proof. vm_compute. repeat split; congruence. Qed.

Lemma adjust_clamps (w : World) :
  income (self w) < total_expenses (expenses (self w)) ->
  0 <= savings (self (adjust_savings_if_needed w)).
Proof. intros Hlt. destruct (adjust_short w Hlt) as (_ & -> & _). lia. Qed.

(** C5, as the code has it: every mutation that reads no file
    ([add_income], [set_savings_goal], [add_expense],
    [adjust_savings_if_needed]) leaves savings that were not negative not
    negative. The load is not among them: it stores the number of the
    [Savings:] line as it is. *)
Theorem savings_stay_nonnegative `{Numerals} (m : mutation) (w : World) :
  0 <= savings (self w) -> 0 <= savings (self (run m w)).
Proof.
  intros Hs. destruct m as [a|g|c d a flag|]; simpl.
  - unfold add_income, save_data. now destruct (0 <? a).
  - unfold set_savings_goal, save_data. now destruct (0 <=? g).
  - destruct (Z_lt_le_dec 0 a) as [Ha|Ha].
    + rewrite add_expense_self by assumption. now apply adjust_savings_nonneg.
    + now rewrite add_expense_ignored.
  - now apply adjust_savings_nonneg.
Qed.

Lemma savings_stay_nonnegative_witness :
  0 <= savings (self (run (AddExpense (lit "Rent") (lit "Monthly Rent") 1000 true)
                        (ledger 500 200))).
Proof.
  apply (savings_stay_nonnegative
           (AddExpense (lit "Rent") (lit "Monthly Rent") 1000 true)
           (ledger 500 200)).
  simpl. lia.
Defined.

(** C5, as the claim words it, fails on the load: a snapshot whose
    [Savings:] line holds [-5] leaves savings of [-5]. *)
Lemma load_stores_negative_savings :
  exists w,
    read_data_from_file
      (mkWorld fresh (Some (snapshot ["Income: 10"%string; "Savings: -5"%string])) [])
    = Returned w
    /\ savings (self w) < 0.
Proof. eexists. split; [vm_compute; reflexivity|]. simpl. lia. Qed.

(** C6, as the code has it: [add_income] and [add_expense] with an amount
    that is not positive, and [set_savings_goal] with a negative goal,
    return normally and change nothing: not the object, not the file, not
    the table. *)
Theorem nonpositive_ignored `{Numerals} (w : World) (amount goal : Z)
  (category description : str) (save_to_db : bool) :
  amount <= 0 ->
  goal < 0 ->
  add_income amount w = w
  /\ add_expense category description amount save_to_db w = w
  /\ set_savings_goal goal w = w.
Proof.
  intros Ha Hg. repeat split.
  - unfold add_income. destruct (Z.ltb_spec 0 amount); [lia|reflexivity].
  - now apply add_expense_ignored.
  - unfold set_savings_goal. destruct (Z.leb_spec 0 goal); [lia|reflexivity].
Qed.

Lemma nonpositive_ignored_witness :
  add_income 0 stocked = stocked
  /\ add_expense (lit "Rent") (lit "Monthly Rent") 0 true stocked = stocked
  /\ set_savings_goal (-1) stocked = stocked.
Proof.
  apply (nonpositive_ignored stocked 0 (-1) (lit "Rent") (lit "Monthly Rent") true);
    lia.
Defined.

(** C6, as the claim words it, fails for the goal 0, which is not
    positive: [set_savings_goal(0)] replaces a goal of 6000 by 0. *)
Lemma zero_goal_is_set :
  savings_goal (self stocked) = 6000
  /\ set_savings_goal 0 stocked <> stocked.
Proof. split; [reflexivity|]. intros E. vm_compute in E. discriminate. Qed.

(** C7: [set_savings_goal(goal)] sets the goal to exactly [goal] when
    [goal >= 0] and leaves it as it was when [goal < 0]. *)
Theorem set_savings_goal_spec (w : World) (goal negative : Z) :
  0 <= goal ->
  negative < 0 ->
  savings_goal (self (set_savings_goal goal w)) = goal
  /\ savings_goal (self (set_savings_goal negative w)) = savings_goal (self w).
Proof.
  intros Hg Hn. unfold set_savings_goal, save_data. split.
  - destruct (Z.leb_spec 0 goal); [reflexivity|lia].
  - destruct (Z.leb_spec 0 negative); [lia|reflexivity].
Qed.

Lemma set_savings_goal_spec_witness :
  savings_goal (self (set_savings_goal 0 stocked)) = 0
  /\ savings_goal (self (set_savings_goal (-3) stocked))
     = savings_goal (self stocked).
Proof. apply (set_savings_goal_spec stocked 0 (-3)); lia. Defined.

(** The adjustment over whole numbers is the one of the ledger. *)
Lemma adjust_accounts_whole (w : World) :
  adjust_accounts (accounts_of (self w))
  = accounts_of (self (adjust_savings_if_needed w)).
Proof.
  unfold adjust_accounts, adjust_savings_if_needed, accounts_of, save_data,
    total_expenses, amounts.
  cbn [num_zero num_add num_sub num_opp num_ltb whole_number acc_income
       acc_savings acc_deficit acc_amounts].
  destruct (_ <? 0); [|reflexivity].
  cbn [with_self self set_deficit set_savings income savings deficit expenses
       savings_goal original_savings].
  now destruct (_ <? 0).
Qed.

(** C9, as the code has it: each call of [adjust_savings_if_needed]
    takes the whole current shortfall [d] from savings again, down to 0 at
    most. When the amounts are whole numbers and every sum and difference
    stays in the exact range, two calls in a row leave savings of
    [max(S - 2d, 0)], and the second call lowers them again exactly when
    the first left some. *)
Theorem adjust_twice (w : World) (d : Z) :
  sums_exact (expenses (self w)) ->
  exact (income (self w)) ->
  exact (savings (self w)) ->
  exact d ->
  total_expenses (expenses (self w)) - income (self w) = d ->
  0 < d ->
  0 < savings (self w) ->
  let w1 := adjust_savings_if_needed w in
  let w2 := adjust_savings_if_needed w1 in
  savings (self w1) = Z.max (savings (self w) - d) 0
  /\ savings (self w2) = Z.max (savings (self w1) - d) 0
  /\ savings (self w2) = Z.max (savings (self w) - 2 * d) 0
  /\ deficit (self w2) = d
  /\ (savings (self w2) < savings (self w1) <-> d < savings (self w)).
Proof.
  intros _ _ _ _ Hd Hpos Hs w1 w2.
  assert (Hlt : income (self w) < total_expenses (expenses (self w))) by lia.
  destruct (adjust_short w Hlt) as (_ & S1 & I1 & X1 & _).
  cbv zeta in S1, I1, X1. fold w1 in S1, I1, X1.
  assert (Hlt1 : income (self w1) < total_expenses (expenses (self w1))).
  { rewrite I1, X1. lia. }
  destruct (adjust_short w1 Hlt1) as (D2 & S2 & _).
  cbv zeta in D2, S2. fold w2 in D2, S2.
  rewrite I1, X1 in D2, S2. rewrite Hd in *.
  repeat split; try lia.
Qed.

Lemma adjust_twice_witness :
  let w := mkWorld (mkFinanceData 500 2000 0
                      [(lit "Rent", [(lit "Monthly Rent", 1000)])] 2000 0)
             None [] in
  let w1 := adjust_savings_if_needed w in
  let w2 := adjust_savings_if_needed w1 in
  savings (self w1) = Z.max (savings (self w) - 500) 0
  /\ savings (self w2) = Z.max (savings (self w1) - 500) 0
  /\ savings (self w2) = Z.max (savings (self w) - 2 * 500) 0
  /\ deficit (self w2) = 500
  /\ (savings (self w2) < savings (self w1) <-> 500 < savings (self w)).
Proof.
  intros w.
  apply (adjust_twice w 500);
    try reflexivity; try (unfold exact; simpl; lia).
  unfold sums_exact, amounts. cbn. unfold exact. lia.
Defined.

(** C9, as the claim words it, fails on the numbers of the program: with
    savings of 100.0, no income and one expense of 0.1 (whose sum is 0.1
    however it is summed), the shortfall is 0.1 and two calls leave
    99.80000000000001, which is more than [100.0 - 2 * 0.1 = 99.8]: the
    second subtraction rounds. *)
Lemma adjust_twice_rounds :
  let a1 := Binary64.adjust Binary64.small_shortfall in
  let a2 := Binary64.adjust a1 in
  let claimed :=
    PrimFloat.sub Binary64.hundred (PrimFloat.mul Binary64.two Binary64.tenth) in
  acc_deficit a1 = Binary64.tenth
  /\ acc_deficit a2 = Binary64.tenth
  /\ PrimFloat.ltb (acc_savings a2) (acc_savings a1) = true
  /\ PrimFloat.ltb claimed (acc_savings a2) = true
  /\ acc_savings a2 <> claimed.
Proof.
  cbv zeta. repeat split; try (vm_compute; reflexivity).
  intros E.
  apply (f_equal (fun v => PrimFloat.ltb v (acc_savings
           (Binary64.adjust (Binary64.adjust Binary64.small_shortfall))))) in E.
  vm_compute in E. discriminate.
Qed.

(** On whole numbers in the exact range the floats give what the whole
    numbers give: income 500, savings 2000, one expense of 1000. *)
Lemma adjust_twice_on_floats :
  let a2 := Binary64.adjust (Binary64.adjust Binary64.rent_shortfall) in
  acc_savings a2 = Binary64.thousand
  /\ acc_deficit a2 = Binary64.five_hundred.
Proof. cbv zeta. split; vm_compute; reflexivity. Qed.

(** ** The loop of the load *)

Lemma expense_lines_cons (flag : bool) (line : str) (rest : list str) :
  expense_lines flag (line :: rest)
  = expense_lines flag [line] ++ expense_lines (next_flag flag line) rest.
Proof.
  unfold next_flag. simpl.
  destruct (is_field_line line); [reflexivity|].
  destruct (Py.startswith line (lit "Expenses:")); [reflexivity|].
  destruct flag; simpl; [|reflexivity].
  now destruct (Py.eqb (Py.strip line) []).
Qed.

(** One line that does not raise: the flag it leaves, and the entry, if
    any, it adds to the dictionary and to the cursor. *)
Lemma read_line_returned `{Numerals} (st st1 : loop_state) (line : str) :
  read_line st line = inr st1 ->
  in_expenses_section st1 = next_flag (in_expenses_section st) line
  /\ exists es,
       map parse_expense (expense_lines (in_expenses_section st) [line])
       = map Some es
       /\ expenses (obj st1) = fold_left append_entry es (expenses (obj st))
       /\ cursor st1 = fold_left insert_entry es (cursor st).
Proof.
  unfold read_line, next_flag, expense_lines, is_field_line, parse_expense.
  destruct (Py.startswith line (lit "Income:")); simpl.
  { destruct (py_float (header_value line)); [|discriminate].
    intros [= <-]. split; [reflexivity|]. now exists []. }
  destruct (Py.startswith line (lit "Savings:")); simpl.
  { destruct (py_float (header_value line)); [|discriminate].
    intros [= <-]. split; [reflexivity|]. now exists []. }
  destruct (Py.startswith line (lit "SavingsGoal:")); simpl.
  { destruct (py_float (header_value line)); [|discriminate].
    intros [= <-]. split; [reflexivity|]. now exists []. }
  destruct (Py.startswith line (lit "Expenses:")); simpl.
  { intros [= <-]. split; [reflexivity|]. now exists []. }
  destruct (in_expenses_section st) eqn:F; simpl.
  2:{ intros [= <-]. split; [assumption|]. now exists []. }
  destruct (Py.eqb (Py.strip line) []); simpl.
  { intros [= <-]. split; [assumption|]. now exists []. }
  destruct (Py.split (Py.strip line) (lit ", ")) as [|c [|d [|a [|? ?]]]];
    try discriminate.
  destruct (py_float a) as [v|]; [|discriminate].
  intros [= <-]. split; [reflexivity|]. now exists [(c, d, v)].
Qed.

Lemma parsed_entries `{Numerals} (flag : bool) (lines : list str)
  (es : list (str * str * Z)) :
  map parse_expense (expense_lines flag lines) = map Some es ->
  file_entries flag lines = es.
Proof.
  unfold file_entries. generalize (expense_lines flag lines) as ls.
  intros ls; revert es; induction ls as [|l ls IH]; intros [|x es]; simpl;
    try discriminate; [reflexivity|].
  intros [= -> E]. simpl. f_equal. now apply IH.
Qed.

(** The whole loop, when it does not raise: every expense line of the file
    parses, and the parsed entries, in file order, are what was appended
    to the dictionary and inserted by the cursor. *)
Lemma read_lines_returned `{Numerals} (lines : list str) (st st' : loop_state) :
  read_lines st lines = inr st' ->
  let es := file_entries (in_expenses_section st) lines in
  map parse_expense (expense_lines (in_expenses_section st) lines) = map Some es
  /\ expenses (obj st') = fold_left append_entry es (expenses (obj st))
  /\ cursor st' = fold_left insert_entry es (cursor st).
Proof.
  revert st; induction lines as [|line rest IH]; intros st E; simpl in E.
  - injection E as <-. now repeat split.
  - destruct (read_line st line) as [e|st1] eqn:R; [discriminate|].
    apply read_line_returned in R as (F1 & es1 & P1 & X1 & C1).
    apply IH in E as (P2 & X2 & C2). cbv zeta in *.
    rewrite F1 in P2, X2, C2.
    set (es2 := file_entries (next_flag (in_expenses_section st) line) rest) in *.
    assert (P : map parse_expense
                  (expense_lines (in_expenses_section st) (line :: rest))
                = map Some (es1 ++ es2)).
    { rewrite expense_lines_cons, !map_app. now rewrite P1, P2. }
    rewrite (parsed_entries _ _ _ P). split; [exact P|].
    rewrite !fold_left_app, <- X1, <- C1. now split.
Qed.

(** The loop, when it raises: what the dictionary holds by then is what it
    held, with some entries appended. *)
Lemma read_lines_raised `{Numerals} (lines : list str) (st st' : loop_state)
  (e : exn) :
  read_lines st lines = inl (e, st') ->
  exists es, expenses (obj st') = fold_left append_entry es (expenses (obj st)).
Proof.
  revert st; induction lines as [|line rest IH]; intros st E; simpl in E;
    [discriminate|].
  destruct (read_line st line) as [e1|st1] eqn:R.
  - inversion E; subst. now exists [].
  - apply read_line_returned in R as (_ & es1 & _ & X1 & _).
    apply IH in E as (es2 & X2). exists (es1 ++ es2).
    now rewrite fold_left_app, <- X1.
Qed.

Lemma parse_expense_none `{Numerals} (line : str) :
  List.length (Py.split (Py.strip line) (lit ", ")) <> 3%nat
  \/ py_float (nth 2 (Py.split (Py.strip line) (lit ", ")) []) = None ->
  parse_expense line = None.
Proof.
  unfold parse_expense.
  destruct (Py.split (Py.strip line) (lit ", ")) as [|c [|d [|a [|? ?]]]];
    try reflexivity.
  simpl. intros [N|E]; [now contradiction N|now rewrite E].
Qed.

(** ** The dictionary *)

Lemma get_append_item (c k : str) (x : item) (e : expenses_dict) :
  get c (append_item k x e)
  = get c e ++ (if Py.eqb k c then [x] else []).
Proof.
  unfold get. induction e as [|[k0 items] rest IH]; simpl.
  - now destruct (Py.eqb k c).
  - destruct (Py.eqb k0 k) eqn:E0; simpl.
    + apply eqb_eq in E0 as ->.
      destruct (Py.eqb k c); [reflexivity|now rewrite app_nil_r].
    + destruct (Py.eqb k0 c) eqn:E1; [|exact IH].
      apply eqb_eq in E1 as ->. apply eqb_neq in E0.
      assert (E : Py.eqb k c = false) by (apply eqb_neq; congruence).
      now rewrite E, app_nil_r.
Qed.

Lemma get_fold_append (c : str) (es : list (str * str * Z)) (e : expenses_dict) :
  get c (fold_left append_entry es e) = get c e ++ entries_of c es.
Proof.
  revert e; induction es as [|[[k d] a] es IH]; intros e; simpl.
  - now rewrite app_nil_r.
  - rewrite IH. unfold append_entry. simpl.
    rewrite get_append_item, <- app_assoc. f_equal.
    unfold entries_of. simpl. now destruct (Py.eqb k c).
Qed.

Lemma flatten_append_item (k d : str) (a : Z) (e : expenses_dict) :
  Permutation (flatten (append_item k (d, a) e)) (flatten e ++ [(k, d, a)]).
Proof.
  unfold flatten. induction e as [|[k0 items] rest IH]; simpl.
  - apply Permutation_refl.
  - destruct (Py.eqb k0 k) eqn:E0; simpl.
    + apply eqb_eq in E0 as ->. rewrite map_app. simpl.
      rewrite <- !app_assoc. apply Permutation_app_head.
      apply Permutation_app_comm.
    + rewrite <- app_assoc. now apply Permutation_app_head.
Qed.

Lemma flatten_fold_append (es : list (str * str * Z)) (e : expenses_dict) :
  Permutation (flatten (fold_left append_entry es e)) (flatten e ++ es).
Proof.
  revert e; induction es as [|[[k d] a] es IH]; intros e; simpl.
  - now rewrite app_nil_r.
  - rewrite IH. unfold append_entry. simpl.
    rewrite flatten_append_item, <- app_assoc. apply Permutation_refl.
Qed.

(** ** The table *)

Lemma rows_of_fold_insert (es : list (str * str * Z)) (db : list row) :
  rows_of (fold_left insert_entry es db) = rows_of db ++ es.
Proof.
  revert db; induction es as [|[[k d] a] es IH]; intros db; simpl.
  - now rewrite app_nil_r.
  - rewrite IH. unfold insert_entry, db_insert, rows_of. simpl.
    rewrite map_app, <- app_assoc. reflexivity.
Qed.

Lemma fold_max_count (n : nat) :
  fold_left Z.max (map Z.of_nat (seq 1 n)) 0 = Z.of_nat n.
Proof.
  induction n as [|n IH]; [reflexivity|].
  rewrite seq_S, map_app, fold_left_app, IH. simpl. lia.
Qed.

(** Keys handed out from an empty table, or from one numbered from 1, keep
    counting from 1. *)
Lemma ids_fold_insert (es : list (str * str * Z)) (db : list row) :
  map row_id db = map Z.of_nat (seq 1 (List.length db)) ->
  map row_id (fold_left insert_entry es db)
  = map Z.of_nat (seq 1 (List.length db + List.length es)).
Proof.
  revert db; induction es as [|x es IH]; intros db Hdb; simpl.
  - now rewrite Nat.add_0_r.
  - rewrite IH.
    + unfold insert_entry, db_insert. rewrite length_app. simpl.
      f_equal. f_equal. lia.
    + unfold insert_entry, db_insert. rewrite length_app, map_app. simpl.
      rewrite Nat.add_1_r, seq_S, map_app, <- Hdb. simpl.
      unfold next_id. rewrite Hdb, fold_max_count. do 3 f_equal. lia.
Qed.

(** ** The load *)

Lemma read_data_returned `{Numerals} (w w' : World) :
  read_data_from_file w = Returned w' ->
  let es := file_entries false (file_lines w) in
  map parse_expense (expense_lines false (file_lines w)) = map Some es
  /\ expenses (self w') = fold_left append_entry es (expenses (self w))
  /\ database w' = fold_left insert_entry es [].
Proof.
  unfold read_data_from_file, file_lines.
  destruct (text_file w) as [content|].
  - destruct (read_lines _ _) as [[e st]|st] eqn:R; [discriminate|].
    intros [= <-]. apply read_lines_returned in R. exact R.
  - intros [= <-]. now repeat split.
Qed.

Lemma adjust_keeps (w : World) :
  expenses (self (adjust_savings_if_needed w)) = expenses (self w)
  /\ database (adjust_savings_if_needed w) = database w.
Proof.
  unfold adjust_savings_if_needed, save_data. cbv zeta.
  destruct (_ <? 0); [|now split]. simpl.
  now destruct (_ <? 0).
Qed.

Lemma section_line_not_field (line : str) :
  Py.startswith line (lit "Expenses:") = true -> is_field_line line = false.
Proof.
  destruct line as [|c t]; [discriminate|].
  change (Py.startswith (c :: t) (lit "Expenses:"))
    with (Ascii.eqb "E" c && Py.startswith t (lit "xpenses:")).
  intros E. apply andb_prop in E as [E _].
  apply Ascii.eqb_eq in E. subst c. reflexivity.
Qed.

(** A line that stands after a section line, carries none of the four
    prefixes and is not blank is an expense line of the file. *)
Lemma expense_line_member (before after : list str) (line : str) (flag : bool) :
  flag = true
  \/ existsb (fun l => Py.startswith l (lit "Expenses:")) before = true ->
  is_field_line line = false ->
  Py.startswith line (lit "Expenses:") = false ->
  Py.strip line <> [] ->
  In line (expense_lines flag (before ++ line :: after)).
Proof.
  intros Hf F S B. apply eqb_neq in B.
  revert flag Hf; induction before as [|b before IH]; intros flag Hf.
  - destruct Hf as [->|Hf]; [|discriminate].
    cbn [app expense_lines]. rewrite F, S, B. now left.
  - cbn [app expense_lines existsb] in *.
    destruct (Py.startswith b (lit "Expenses:")) eqn:Sb.
    + rewrite (section_line_not_field b Sb). apply IH. now left.
    + cbn [orb] in Hf. destruct (is_field_line b); [now apply IH|].
      destruct flag; cbn [andb].
      * destruct (negb (Py.eqb (Py.strip b) [])); [right|]; apply IH; now left.
      * apply IH. right. now destruct Hf.
Qed.

(** C8, as the code has it: a line that stands after a line [Expenses:],
    is not blank and starts with none of [Income:], [Savings:],
    [SavingsGoal:], [Expenses:] is read as an expense; if it has another
    number of fields than three, or an amount that [float] rejects, the
    load leaves with [ValueError]: it does not return, and the table is as
    it was before the call. *)
Theorem malformed_expense_line_aborts `{Numerals} (w : World)
  (before after : list str) (line : str) :
  file_lines w = before ++ line :: after ->
  existsb (fun l => Py.startswith l (lit "Expenses:")) before = true ->
  is_field_line line = false ->
  Py.startswith line (lit "Expenses:") = false ->
  Py.strip line <> [] ->
  List.length (Py.split (Py.strip line) (lit ", ")) <> 3%nat
  \/ py_float (nth 2 (Py.split (Py.strip line) (lit ", ")) []) = None ->
  exists w',
    read_data_from_file w = Raised ValueError w' /\ database w' = database w.
Proof.
  intros Hl Hs Hf He Hb Hbad. apply parse_expense_none in Hbad.
  assert (Hin : In line (expense_lines false (file_lines w))).
  { rewrite Hl. apply expense_line_member; try assumption. now right. }
  destruct (read_data_from_file w) as [w'|[] w'] eqn:R.
  - apply read_data_returned in R as (P & _).
    apply (in_map parse_expense) in Hin. rewrite P, Hbad in Hin.
    apply in_map_iff in Hin as (x & Hx & _). discriminate.
  - exists w'. split; [reflexivity|].
    unfold read_data_from_file in R.
    destruct (text_file w); [|discriminate].
    destruct (read_lines _ _) as [[e st]|st]; [|discriminate].
    inversion R; subst. reflexivity.
Qed.

Lemma malformed_expense_line_aborts_witness :
  let w := mkWorld fresh
             (Some (snapshot ["Income: 10"; "Expenses:"; "Food, Bread, 2";
                              "Food, Milk"]%string))
             [mkRow 1 (lit "Rent") (lit "Monthly Rent") 1000] in
  exists w',
    read_data_from_file w = Raised ValueError w' /\ database w' = database w.
Proof.
  intros w.
  apply (malformed_expense_line_aborts w
           [lit "Income: 10" ++ [LF]; lit "Expenses:" ++ [LF];
            lit "Food, Bread, 2" ++ [LF]]
           [] (lit "Food, Milk" ++ [LF])).
  - reflexivity.
  - reflexivity.
  - reflexivity.
  - reflexivity.
  - intros E. vm_compute in E. discriminate.
  - left. vm_compute. discriminate.
Defined.

(** C8, as the claim words it, fails on a line of the expenses that starts
    with [Expenses:]. The entry [("a, b", 5)] of the category
    ["Expenses: misc"] is written by [save_data_to_file] as a line of four
    fields after the section line; the load takes that line for a section
    line, passes over it without error and returns, with the other entry
    only. *)
Lemma prefixed_expense_line_skipped :
  text_file (save_data_to_file misfiled)
  = Some (snapshot ["Income: 10"; "Savings: 5"; "SavingsGoal: 0"; "Expenses:";
                    "Expenses: misc, a, b, 5"; "Food, Bread, 2"]%string)
  /\ List.length
       (Py.split (Py.strip (lit "Expenses: misc, a, b, 5" ++ [LF])) (lit ", "))
     = 4%nat
  /\ exists w',
       FinanceData_init (save_data_to_file misfiled) = Returned w'
       /\ expenses (self w') = [(lit "Food", [(lit "Bread", 2)])]
       /\ rows_of (database w') = [(lit "Food", lit "Bread", 2)].
Proof.
  split; [vm_compute; reflexivity|]. split; [vm_compute; reflexivity|].
  eexists. split; [vm_compute; reflexivity|]. split; reflexivity.
Qed.





(** C4, as the code has it. The expense lines of a snapshot are the lines
    after a line [Expenses:] that are not blank and start with none of
    [Income:], [Savings:], [SavingsGoal:], [Expenses:] ([expense_lines]).
    When the load returns, the table holds one row per expense line, in
    file order and numbered from 1, each the parse of its line, and nothing
    else; if the dictionary was empty before the load, as it is when the
    object is built, the rows are the flattened dictionary up to order.
    [add_expense] with [save_to_db=True] and an amount in the exact range,
    which the table stores as it is, keeps table and dictionary in step. *)
Theorem store_mirrors_snapshot `{Numerals} (w w' v : World)
  (category description : str) (amount : Z) :
  read_data_from_file w = Returned w' ->
  Permutation (rows_of (database v)) (flatten (expenses (self v))) ->
  exact amount ->
  let lines := expense_lines false (file_lines w) in
  let v' := add_expense category description amount true v in
  map parse_expense lines = map Some (rows_of (database w'))
  /\ List.length (database w') = List.length lines
  /\ map row_id (database w') = map Z.of_nat (seq 1 (List.length lines))
  /\ (expenses (self w) = [] ->
      Permutation (rows_of (database w')) (flatten (expenses (self w'))))
  /\ Permutation (rows_of (database v')) (flatten (expenses (self v'))).
Proof.
  intros R P _ lines v'.
  apply read_data_returned in R as (Q & X & D). cbv zeta in Q, X, D.
  fold lines in Q.
  set (es := file_entries false (file_lines w)) in *.
  assert (Rw : rows_of (database w') = es).
  { now rewrite D, rows_of_fold_insert. }
  assert (Len : List.length (database w') = List.length lines).
  { transitivity (List.length (rows_of (database w'))).
    - unfold rows_of. now rewrite length_map.
    - rewrite Rw. apply (f_equal (@List.length _)) in Q.
      now rewrite !length_map in Q. }
  repeat split.
  - now rewrite Rw.
  - exact Len.
  - rewrite D, (ids_fold_insert es []) by reflexivity. simpl.
    rewrite <- Len. unfold rows_of in Rw.
    apply (f_equal (@List.length _)) in Rw. rewrite length_map in Rw.
    now rewrite Rw.
  - intros E. rewrite Rw, X, E. symmetry.
    apply (flatten_fold_append es []).
  - unfold v', add_expense. destruct (0 <? amount); [|exact P].
    unfold save_data_to_file. cbn [self database].
    destruct (adjust_keeps
                (save_expense_to_db category description amount
                   (with_self
                      (set_expenses
                         (append_item category (description, amount)
                            (expenses (self v))) (self v)) v)))
      as (-> & ->).
    cbn [save_expense_to_db with_self set_expenses self database expenses].
    unfold db_insert, rows_of. rewrite map_app. simpl. fold (rows_of (database v)).
    rewrite flatten_append_item. now apply Permutation_app_tail.
Qed.

Lemma store_mirrors_snapshot_witness :
  let w := with_self fresh (save_data_to_file stocked) in
  let w' := world_of (read_data_from_file w) in
  let v := rent empty_world in
  let lines := expense_lines false (file_lines w) in
  let v' := add_expense (lit "Groceries") (lit "Bread") 2 true v in
  map parse_expense lines = map Some (rows_of (database w'))
  /\ List.length (database w') = List.length lines
  /\ map row_id (database w') = map Z.of_nat (seq 1 (List.length lines))
  /\ (expenses (self w) = [] ->
      Permutation (rows_of (database w')) (flatten (expenses (self w'))))
  /\ Permutation (rows_of (database v')) (flatten (expenses (self v'))).
Proof.
  intros w w' v.
  apply (store_mirrors_snapshot w w' v (lit "Groceries") (lit "Bread") 2).
  - vm_compute. reflexivity.
  - vm_compute. apply Permutation_refl.
  - unfold exact. lia.
Defined.

(** C4, as the claim words it, fails after a save and after a load.
    [add_expense] with [save_to_db=False] writes the snapshot with an
    entry the table never receives; and a load into an object that
    already holds the entries of the file leaves three rows in the table
    and six entries in the dictionary. *)
Lemma store_differs_from_dictionary :
  let v := add_expense (lit "Groceries") (lit "Bread") 2 false empty_world in
  let w := world_of (read_data_from_file (save_data_to_file stocked)) in
  (text_file v
   = Some (snapshot ["Income: 0"; "Savings: 0"; "SavingsGoal: 0";
                     "Expenses:"; "Groceries, Bread, 2"]%string)
   /\ flatten (expenses (self v)) = [(lit "Groceries", lit "Bread", 2)]
   /\ rows_of (database v) = []
   /\ ~ Permutation (rows_of (database v)) (flatten (expenses (self v))))
  /\ (List.length (rows_of (database w)) = 3%nat
      /\ List.length (flatten (expenses (self w))) = 6%nat
      /\ ~ Permutation (rows_of (database w)) (flatten (expenses (self w)))).
Proof.
  cbv zeta. repeat split; try (vm_compute; reflexivity);
    intros P; apply Permutation_length in P; vm_compute in P; discriminate.
Qed.

(** ** Reading back what was written *)

Lemma one_line_app (a b : str) : one_line (a ++ b) = one_line a && one_line b.
Proof. apply forallb_app. Qed.

Lemma universal_newlines_plain (s : str) :
  forallb (fun c => negb (Ascii.eqb c CR)) s = true ->
  Py.universal_newlines s = s.
Proof.
  induction s as [|c t IH]; simpl; [reflexivity|].
  intros E. apply andb_prop in E as [E1 E2].
  apply negb_true_iff in E1. rewrite E1. f_equal. now apply IH.
Qed.

Lemma one_line_no_return (s : str) :
  one_line s = true -> forallb (fun c => negb (Ascii.eqb c CR)) s = true.
Proof.
  induction s as [|c t IH]; simpl; [reflexivity|].
  intros E. apply andb_prop in E as [E1 E2]. apply andb_prop in E1 as [_ E1].
  rewrite E1. now apply IH.
Qed.

Lemma readlines_go_line (l cur rest : str) :
  one_line l = true ->
  Py.readlines_go cur (l ++ LF :: rest)
  = (rev cur ++ l ++ [LF]) :: Py.readlines_go [] rest.
Proof.
  revert cur; induction l as [|c t IH]; intros cur E.
  - reflexivity.
  - simpl in E. apply andb_prop in E as [E1 E2].
    apply andb_prop in E1 as [E1 _]. apply negb_true_iff in E1.
    cbn [app Py.readlines_go]. rewrite E1, IH by assumption.
    simpl. now rewrite <- app_assoc.
Qed.

Lemma readlines_go_lines (ls : list str) :
  forallb one_line ls = true ->
  Py.readlines_go [] (List.concat (map (fun l => l ++ [LF]) ls))
  = map (fun l => l ++ [LF]) ls.
Proof.
  induction ls as [|l ls IH]; simpl; [reflexivity|].
  intros E. apply andb_prop in E as [E1 E2].
  rewrite <- app_assoc. cbn [app].
  rewrite readlines_go_line by assumption. simpl. now rewrite IH.
Qed.

(** A text made of lines without line breaks, each closed by [\n], is read
    back as those lines. *)
Lemma readlines_written (ls : list str) :
  forallb one_line ls = true ->
  Py.readlines (List.concat (map (fun l => l ++ [LF]) ls))
  = map (fun l => l ++ [LF]) ls.
Proof.
  intros E. unfold Py.readlines.
  rewrite universal_newlines_plain; [now apply readlines_go_lines|].
  clear -E. induction ls as [|l ls IH]; simpl; [reflexivity|].
  simpl in E. apply andb_prop in E as [E1 E2].
  rewrite !forallb_app, (one_line_no_return l E1), IH by assumption.
  reflexivity.
Qed.

(** *** Tokens *)

Lemma token_not_space (c : ascii) : token_char c = true -> Py.isspace c = false.
Proof.
  unfold token_char. intros E. apply andb_prop in E as [E _].
  apply andb_prop in E as [E _]. now apply negb_true_iff in E.
Qed.

Lemma token_not_break (c : ascii) :
  token_char c = true ->
  negb (Ascii.eqb c LF) && negb (Ascii.eqb c CR) = true.
Proof.
  intros E. apply token_not_space in E.
  destruct (Ascii.eqb_spec c LF) as [->|_]; [discriminate E|].
  destruct (Ascii.eqb_spec c CR) as [->|_]; [discriminate E|reflexivity].
Qed.

Lemma token_one_line (n : str) : forallb token_char n = true -> one_line n = true.
Proof.
  unfold one_line. induction n as [|c t IH]; simpl; [reflexivity|].
  intros E. apply andb_prop in E as [E1 E2].
  now rewrite (token_not_break c E1), IH.
Qed.

Lemma token_no_separator (n : str) :
  forallb token_char n = true -> has_separator n = false.
Proof.
  induction n as [|c t IH]; simpl; [reflexivity|].
  intros E. apply andb_prop in E as [E1 E2]. rewrite IH by assumption.
  unfold token_char in E1. apply andb_prop in E1 as [_ E1].
  apply negb_true_iff in E1. now rewrite E1.
Qed.

(** *** [strip] *)

Lemma lstrip_keep (s : str) : no_leading_space s = true -> Py.lstrip s = s.
Proof.
  destruct s as [|c t]; simpl; [reflexivity|].
  intros E. apply negb_true_iff in E. now rewrite E.
Qed.

Lemma rstrip_line (body n : str) :
  forallb token_char n = true ->
  n <> [] ->
  Py.rstrip (body ++ n ++ [LF]) = body ++ n.
Proof.
  intros T N. unfold Py.rstrip.
  rewrite app_assoc, rev_app_distr. cbn [rev app Py.lstrip].
  change (Py.isspace LF) with true. cbn iota.
  rewrite lstrip_keep; [now rewrite rev_involutive|].
  rewrite rev_app_distr.
  destruct (rev n) as [|c m] eqn:R.
  - apply (f_equal (@rev _)) in R. rewrite rev_involutive in R. now subst.
  - cbn [app no_leading_space].
    assert (In c n) by (apply in_rev; rewrite R; now left).
    rewrite forallb_forall in T.
    now rewrite (token_not_space c (T c H)).
Qed.

Lemma strip_line (body n : str) :
  no_leading_space (body ++ n) = true ->
  forallb token_char n = true ->
  n <> [] ->
  Py.strip (body ++ n ++ [LF]) = body ++ n.
Proof.
  intros L T N. unfold Py.strip.
  rewrite lstrip_keep; [now apply rstrip_line|].
  rewrite app_assoc. destruct (body ++ n) as [|c t] eqn:E; [|exact L].
  apply app_eq_nil in E as [_ ->]. now contradiction N.
Qed.

(** *** [startswith] *)

Lemma startswith_nil (s : str) : Py.startswith s [] = true.
Proof. now destruct s. Qed.

Lemma startswith_before_comma (p c r : str) :
  forallb (fun x => negb (Ascii.eqb x ",")) p = true ->
  Py.startswith (c ++ ","%char :: r) p = Py.startswith c p.
Proof.
  revert c; induction p as [|x p IH]; intros c E; [now destruct c|].
  simpl in E. apply andb_prop in E as [E1 E2]. apply negb_true_iff in E1.
  destruct c as [|y c]; simpl.
  - now rewrite E1.
  - now rewrite IH.
Qed.

(** *** [split] *)

Lemma split_go_scan (sep cur t : str) (c : ascii) :
  Py.split_go sep 0 cur (c :: t)
  = if Py.startswith (c :: t) sep
    then rev cur :: Py.split_go sep (pred (List.length sep)) [] t
    else Py.split_go sep 0 (c :: cur) t.
Proof. reflexivity. Qed.

Lemma split_go_skip (sep cur t : str) (c : ascii) (k : nat) :
  Py.split_go sep (S k) cur (c :: t) = Py.split_go sep k cur t.
Proof. reflexivity. Qed.

Lemma startswith_cons (s p : str) (x y : ascii) :
  Py.startswith (y :: s) (x :: p) = Ascii.eqb x y && Py.startswith s p.
Proof. reflexivity. Qed.

Lemma split_colon_free (s cur : str) :
  forallb (fun c => negb (Ascii.eqb c ":")) s = true ->
  Py.split_go [":"%char] 0 cur s = [rev cur ++ s].
Proof.
  revert cur; induction s as [|c t IH]; intros cur E.
  - simpl. now rewrite app_nil_r.
  - cbn [forallb] in E. apply andb_prop in E as [E1 E2].
    apply negb_true_iff in E1.
    rewrite split_go_scan, startswith_cons, Ascii.eqb_sym, E1. cbn [andb].
    rewrite IH by assumption. cbn [rev]. now rewrite <- app_assoc.
Qed.

Lemma split_colon (key cur rest : str) :
  forallb (fun c => negb (Ascii.eqb c ":")) key = true ->
  Py.split_go [":"%char] 0 cur (key ++ ":"%char :: rest)
  = (rev cur ++ key) :: Py.split_go [":"%char] 0 [] rest.
Proof.
  revert cur; induction key as [|c t IH]; intros cur E.
  - cbn [app]. rewrite split_go_scan, startswith_cons, startswith_nil.
    rewrite Ascii.eqb_refl. cbn [andb List.length pred].
    now rewrite app_nil_r.
  - cbn [forallb] in E. apply andb_prop in E as [E1 E2].
    apply negb_true_iff in E1. cbn [app].
    rewrite split_go_scan, startswith_cons, Ascii.eqb_sym, E1. cbn [andb].
    rewrite IH by assumption. cbn [rev]. now rewrite <- app_assoc.
Qed.

(** A field without separator is not cut: the scan passes over each of
    its characters, a comma included, since no space follows it. *)
Lemma scan_inside_field (c : ascii) (t tail cur : str) :
  (Ascii.eqb c "," && match t with d :: _ => Ascii.eqb d " " | [] => false end)
  = false ->
  (forall d u, tail = d :: u -> t = [] -> Ascii.eqb d " " = false) ->
  Py.split_go [","; " "]%char 0 cur (c :: t ++ tail)
  = Py.split_go [","; " "]%char 0 (c :: cur) (t ++ tail).
Proof.
  intros E T. rewrite split_go_scan, startswith_cons.
  rewrite (Ascii.eqb_sym ","%char c).
  destruct (Ascii.eqb c ",") eqn:C; cbn [andb]; [|reflexivity].
  cbn [andb] in E.
  destruct t as [|d t']; cbn [app].
  - destruct tail as [|d u]; [reflexivity|].
    rewrite startswith_cons, (Ascii.eqb_sym " "%char d), (T d u) by reflexivity.
    reflexivity.
  - now rewrite startswith_cons, (Ascii.eqb_sym " "%char d), E.
Qed.

Lemma split_last_field (a cur : str) :
  has_separator a = false ->
  Py.split_go [","; " "]%char 0 cur a = [rev cur ++ a].
Proof.
  revert cur; induction a as [|c t IH]; intros cur E.
  - simpl. now rewrite app_nil_r.
  - cbn [has_separator] in E. apply orb_false_iff in E as [E1 E2].
    rewrite <- (app_nil_r t) at 1.
    rewrite scan_inside_field, app_nil_r by (assumption || discriminate).
    rewrite IH by assumption. cbn [rev]. now rewrite <- app_assoc.
Qed.

Lemma split_field (a cur rest : str) :
  has_separator a = false ->
  Py.split_go [","; " "]%char 0 cur (a ++ ","%char :: " "%char :: rest)
  = (rev cur ++ a) :: Py.split_go [","; " "]%char 0 [] rest.
Proof.
  revert cur; induction a as [|c t IH]; intros cur E.
  - cbn [app]. rewrite split_go_scan, !startswith_cons, startswith_nil.
    rewrite !Ascii.eqb_refl. cbn [andb List.length pred].
    now rewrite split_go_skip, app_nil_r.
  - cbn [has_separator] in E. apply orb_false_iff in E as [E1 E2].
    cbn [app]. rewrite scan_inside_field.
    + rewrite IH by assumption. cbn [rev]. now rewrite <- app_assoc.
    + assumption.
    + now intros d u [= <- _] _.
Qed.

(** *** The lines of a snapshot, read *)

Lemma numeral_ok_inv `{Numerals} (z : Z) :
  numeral_ok z = true ->
  py_float (py_str z) = Some z
  /\ py_str z <> []
  /\ forallb token_char (py_str z) = true.
Proof.
  unfold numeral_ok. intros E. apply andb_prop in E as [E T].
  apply andb_prop in E as [P N]. repeat split; [| |exact T].
  - destruct (py_float (py_str z)) as [v|]; [|discriminate].
    apply Z.eqb_eq in P. now subst.
  - apply negb_true_iff in N. now apply eqb_neq in N.
Qed.

Lemma token_no_colon (n : str) :
  forallb token_char n = true ->
  forallb (fun c => negb (Ascii.eqb c ":")) n = true.
Proof.
  induction n as [|c t IH]; simpl; [reflexivity|].
  intros E. apply andb_prop in E as [E1 E2]. rewrite IH by assumption.
  unfold token_char in E1. apply andb_prop in E1 as [E1 _].
  apply andb_prop in E1 as [_ E1]. now rewrite E1.
Qed.

Lemma token_head (n : str) :
  forallb token_char n = true -> no_leading_space n = true.
Proof.
  destruct n as [|c t]; simpl; [reflexivity|].
  intros E. apply andb_prop in E as [E _].
  now rewrite (token_not_space c E).
Qed.

(** The value of a field line [key: number]. *)
Lemma header_value_written (key n : str) :
  forallb (fun c => negb (Ascii.eqb c ":")) key = true ->
  forallb token_char n = true ->
  n <> [] ->
  header_value (key ++ ":"%char :: " "%char :: n ++ [LF]) = n.
Proof.
  intros K T N. unfold header_value, Py.split.
  change (lit ":") with [":"%char].
  rewrite split_colon by assumption.
  rewrite split_colon_free.
  - cbn [rev app nth]. unfold Py.strip. cbn [Py.lstrip].
    change (Py.isspace " ") with true. cbn iota.
    apply (strip_line [] n); [now apply token_head|assumption..].
  - cbn [forallb]. rewrite forallb_app, token_no_colon by assumption.
    reflexivity.
Qed.

Lemma read_income_line `{Numerals} (st : loop_state) (v : Z) :
  numeral_ok v = true ->
  read_line st (lit "Income: " ++ py_str v ++ [LF])
  = inr (mkLoop (in_expenses_section st) (set_income v (obj st)) (cursor st)).
Proof.
  intros E. apply numeral_ok_inv in E as (P & N & T). unfold read_line.
  change (Py.startswith (lit "Income: " ++ py_str v ++ [LF]) (lit "Income:"))
    with true. cbn iota.
  change (lit "Income: " ++ py_str v ++ [LF])
    with (lit "Income" ++ ":"%char :: " "%char :: py_str v ++ [LF]).
  rewrite header_value_written by (assumption || reflexivity).
  now rewrite P.
Qed.

Lemma read_savings_line `{Numerals} (st : loop_state) (v : Z) :
  numeral_ok v = true ->
  read_line st (lit "Savings: " ++ py_str v ++ [LF])
  = inr (mkLoop (in_expenses_section st) (set_savings v (obj st)) (cursor st)).
Proof.
  intros E. apply numeral_ok_inv in E as (P & N & T). unfold read_line.
  change (Py.startswith (lit "Savings: " ++ py_str v ++ [LF]) (lit "Income:"))
    with false.
  change (Py.startswith (lit "Savings: " ++ py_str v ++ [LF]) (lit "Savings:"))
    with true. cbn iota.
  change (lit "Savings: " ++ py_str v ++ [LF])
    with (lit "Savings" ++ ":"%char :: " "%char :: py_str v ++ [LF]).
  rewrite header_value_written by (assumption || reflexivity).
  now rewrite P.
Qed.

Lemma read_goal_line `{Numerals} (st : loop_state) (v : Z) :
  numeral_ok v = true ->
  read_line st (lit "SavingsGoal: " ++ py_str v ++ [LF])
  = inr (mkLoop (in_expenses_section st) (set_goal v (obj st)) (cursor st)).
Proof.
  intros E. apply numeral_ok_inv in E as (P & N & T). unfold read_line.
  change (Py.startswith (lit "SavingsGoal: " ++ py_str v ++ [LF]) (lit "Income:"))
    with false.
  change (Py.startswith (lit "SavingsGoal: " ++ py_str v ++ [LF]) (lit "Savings:"))
    with false.
  change (Py.startswith (lit "SavingsGoal: " ++ py_str v ++ [LF])
            (lit "SavingsGoal:"))
    with true. cbn iota.
  change (lit "SavingsGoal: " ++ py_str v ++ [LF])
    with (lit "SavingsGoal" ++ ":"%char :: " "%char :: py_str v ++ [LF]).
  rewrite header_value_written by (assumption || reflexivity).
  now rewrite P.
Qed.

Lemma read_expenses_header `{Numerals} (st : loop_state) :
  read_line st (lit "Expenses:" ++ [LF]) = inr (mkLoop true (obj st) (cursor st)).
Proof. reflexivity. Qed.

Lemma expense_line_shape `{Numerals} (c d : str) (a : Z) :
  expense_line (c, d, a) ++ [LF]
  = c ++ ","%char :: " "%char :: (d ++ ","%char :: " "%char :: py_str a ++ [LF]).
Proof.
  unfold expense_line. change (lit ", ") with [","; " "]%char.
  rewrite <- !app_assoc. reflexivity.
Qed.

Lemma category_ok_inv (c : str) :
  category_ok c = true ->
  one_line c = true /\ has_separator c = false /\ no_leading_space c = true
  /\ is_field_line c = false /\ Py.startswith c (lit "Expenses:") = false.
Proof.
  unfold category_ok, description_ok. intros E.
  apply andb_prop in E as [E E4]. apply andb_prop in E as [E E3].
  apply andb_prop in E as [E E2]. apply andb_prop in E as [E0 E1].
  apply negb_true_iff in E1, E3, E4. now repeat split.
Qed.

Lemma read_expense_line `{Numerals} (st : loop_state) (c d : str) (a : Z) :
  in_expenses_section st = true ->
  category_ok c = true ->
  description_ok d = true ->
  numeral_ok a = true ->
  read_line st (expense_line (c, d, a) ++ [LF])
  = inr (mkLoop true
           (set_expenses (append_item c (d, a) (expenses (obj st))) (obj st))
           (db_insert c d a (cursor st))).
Proof.
  intros F C D A.
  apply category_ok_inv in C as (_ & Cs & Cl & Cf & Ce).
  unfold description_ok in D. apply andb_prop in D as [_ Ds].
  apply negb_true_iff in Ds.
  apply numeral_ok_inv in A as (P & N & T).
  rewrite expense_line_shape.
  set (tail := " "%char :: (d ++ ","%char :: " "%char :: py_str a ++ [LF])).
  unfold read_line.
  unfold is_field_line in Cf.
  apply orb_false_iff in Cf as [Cf C3]. apply orb_false_iff in Cf as [C1 C2].
  rewrite !startswith_before_comma by reflexivity.
  rewrite C1, C2, C3, Ce, F. cbn [andb].
  assert (S : Py.strip (c ++ ","%char :: tail)
              = c ++ ","%char :: " "%char :: (d ++ ","%char :: " "%char :: py_str a)).
  { unfold tail.
    replace (c ++ ","%char :: " "%char :: d ++ ","%char :: " "%char :: py_str a ++ [LF])
      with ((c ++ ","%char :: " "%char :: d ++ [","; " "]%char) ++ py_str a ++ [LF])
      by (rewrite <- !app_assoc; cbn [app]; now rewrite <- !app_assoc).
    rewrite strip_line; try assumption.
    - rewrite <- !app_assoc. cbn [app]. now rewrite <- !app_assoc.
    - destruct c as [|x c]; [reflexivity|exact Cl]. }
  rewrite S.
  assert (Ne : Py.eqb (c ++ ","%char :: " "%char :: d ++ ","%char :: " "%char :: py_str a) []
               = false) by now destruct c.
  rewrite Ne. cbn [negb].
  unfold Py.split. change (lit ", ") with [","; " "]%char.
  rewrite split_field by assumption.
  rewrite split_field by assumption.
  rewrite split_last_field by now apply token_no_separator.
  cbn [rev app]. now rewrite P.
Qed.

(** The expense lines of a snapshot, read in a row. *)
Lemma read_expense_lines `{Numerals} (es : list (str * str * Z)) (st : loop_state) :
  in_expenses_section st = true ->
  forallb (fun x => category_ok (fst (fst x)) && description_ok (snd (fst x))
                    && numeral_ok (snd x)) es = true ->
  read_lines st (map (fun l => l ++ [LF]) (map expense_line es))
  = inr (mkLoop true
           (set_expenses (fold_left append_entry es (expenses (obj st))) (obj st))
           (fold_left insert_entry es (cursor st))).
Proof.
  revert st; induction es as [|[[c d] a] es IH]; intros st F E.
  - simpl. destruct st as [f o cu]. simpl in F. subst f.
    now destruct o.
  - cbn [forallb fst snd] in E. apply andb_prop in E as [E1 E2].
    apply andb_prop in E1 as [E1 A]. apply andb_prop in E1 as [C D].
    cbn [map read_lines]. rewrite read_expense_line by assumption.
    rewrite IH by (assumption || reflexivity).
    cbn [obj cursor expenses set_expenses fold_left].
    reflexivity.
Qed.

(** *** The dictionary, rebuilt entry by entry *)

Lemma mem_app (k : str) (a b : expenses_dict) :
  mem k (a ++ b) = mem k a || mem k b.
Proof. apply existsb_app. Qed.

Lemma append_item_new (k : str) (x : item) (e : expenses_dict) :
  mem k e = false -> append_item k x e = e ++ [(k, [x])].
Proof.
  induction e as [|[k0 items] rest IH]; simpl; [reflexivity|].
  intros E. apply orb_false_iff in E as [E1 E2].
  now rewrite E1, IH.
Qed.

Lemma append_item_last (k : str) (x : item) (l : list item) (e : expenses_dict) :
  mem k e = false ->
  append_item k x (e ++ [(k, l)]) = e ++ [(k, l ++ [x])].
Proof.
  induction e as [|[k0 items] rest IH]; simpl.
  - now rewrite eqb_refl.
  - intros E. apply orb_false_iff in E as [E1 E2]. now rewrite E1, IH.
Qed.

Lemma fold_append_last (k : str) (items l : list item) (e : expenses_dict) :
  mem k e = false ->
  fold_left append_entry (map (fun da => (k, fst da, snd da)) items)
    (e ++ [(k, l)])
  = e ++ [(k, l ++ items)].
Proof.
  intros E. revert l; induction items as [|[d a] items IH]; intros l; simpl.
  - now rewrite app_nil_r.
  - unfold append_entry at 2. simpl.
    rewrite append_item_last, IH, <- app_assoc by assumption. reflexivity.
Qed.

Lemma fold_append_category (k : str) (items : list item) (e : expenses_dict) :
  mem k e = false ->
  Nat.eqb (List.length items) 0 = false ->
  fold_left append_entry (map (fun da => (k, fst da, snd da)) items) e
  = e ++ [(k, items)].
Proof.
  intros E N. destruct items as [|[d a] items]; [discriminate|]. simpl.
  unfold append_entry at 2. simpl.
  now rewrite append_item_new, fold_append_last.
Qed.

Lemma mem_false_other (k : str) (rest : expenses_dict) :
  mem k rest = false ->
  forallb (fun ci => negb (Py.eqb k (fst ci))) rest = true.
Proof.
  induction rest as [|[k0 items] rest IH]; simpl; [reflexivity|].
  intros E. apply orb_false_iff in E as [E1 E2]. rewrite IH by assumption.
  apply eqb_neq in E1.
  assert (E : Py.eqb k k0 = false) by (apply eqb_neq; congruence).
  now rewrite E.
Qed.

(** Appending the entries of a well-keyed dictionary, in its own order, to
    a dictionary with none of its keys puts it as it is at the end. *)
Lemma fold_append_flatten (e e0 : expenses_dict) :
  well_keyed e = true ->
  forallb (fun ci => negb (mem (fst ci) e0)) e = true ->
  fold_left append_entry (flatten e) e0 = e0 ++ e.
Proof.
  revert e0; induction e as [|[k items] rest IH]; intros e0 W D.
  - simpl. now rewrite app_nil_r.
  - cbn [well_keyed] in W. apply andb_prop in W as [W Wr].
    apply andb_prop in W as [Wk Wi]. apply negb_true_iff in Wk, Wi.
    cbn [forallb fst] in D. apply andb_prop in D as [Dk Dr].
    apply negb_true_iff in Dk.
    unfold flatten. cbn [flat_map fst snd]. fold (flatten rest).
    rewrite fold_left_app, fold_append_category by assumption.
    rewrite IH, <- app_assoc; [reflexivity|assumption|].
    apply mem_false_other in Wk.
    clear -Dr Wk. induction rest as [|[k0 items0] rest IH]; [reflexivity|].
    cbn [forallb fst] in *. apply andb_prop in Dr as [D1 D2].
    apply andb_prop in Wk as [W1 W2].
    rewrite mem_app. cbn [mem existsb fst].
    apply negb_true_iff in D1, W1. rewrite D1, W1. cbn [orb negb andb].
    now apply IH.
Qed.

Lemma flatten_entries_ok `{Numerals} (e : expenses_dict) :
  forallb (fun ci =>
       category_ok (fst ci)
       && forallb (fun da => description_ok (fst da) && numeral_ok (snd da))
            (snd ci)) e = true ->
  forallb (fun x => category_ok (fst (fst x)) && description_ok (snd (fst x))
                    && numeral_ok (snd x)) (flatten e) = true.
Proof.
  induction e as [|[k items] rest IH]; [reflexivity|].
  cbn [forallb fst snd]. intros E. apply andb_prop in E as [E Er].
  apply andb_prop in E as [Ek Ei].
  unfold flatten. cbn [flat_map fst snd]. fold (flatten rest).
  rewrite forallb_app, IH by assumption. rewrite andb_true_r.
  clear -Ek Ei. induction items as [|[d a] items IH]; [reflexivity|].
  cbn [forallb fst snd map] in *. apply andb_prop in Ei as [E1 E2].
  apply andb_prop in E1 as [D A].
  now rewrite Ek, D, A, IH.
Qed.

Lemma expense_lines_one_line `{Numerals} (es : list (str * str * Z)) :
  forallb (fun x => category_ok (fst (fst x)) && description_ok (snd (fst x))
                    && numeral_ok (snd x)) es = true ->
  forallb one_line (map expense_line es) = true.
Proof.
  induction es as [|[[c d] a] es IH]; [reflexivity|].
  cbn [forallb fst snd map]. intros E. apply andb_prop in E as [E Er].
  apply andb_prop in E as [E A]. apply andb_prop in E as [C D].
  rewrite IH by assumption. rewrite andb_true_r.
  apply category_ok_inv in C as (C & _).
  unfold description_ok in D. apply andb_prop in D as [D _].
  apply numeral_ok_inv in A as (_ & _ & T). apply token_one_line in T.
  unfold expense_line. rewrite !one_line_app, C, D, T. reflexivity.
Qed.

(** C3, as the code has it. A snapshot written from a ledger is read back
    by a newly built object with the same income, savings, goal and
    dictionary of expenses (same categories in the same order, same entries
    in the same order), provided the snapshot format can carry the ledger:
    every number is rendered as a non-empty text without blank, colon or
    comma that [float] reads back as the number; no category or description
    holds [", "] or a line break; no category starts with a blank or with
    one of the four prefixes; the dictionary has no key twice and no empty
    category. The table then holds the same entries. *)
Theorem snapshot_round_trip `{Numerals} (w : World) :
  snapshot_ok (self w) = true ->
  exists w',
    FinanceData_init (save_data_to_file w) = Returned w'
    /\ income (self w') = income (self w)
    /\ savings (self w') = savings (self w)
    /\ savings_goal (self w') = savings_goal (self w)
    /\ expenses (self w') = expenses (self w)
    /\ original_savings (self w') = savings (self w)
    /\ rows_of (database w') = flatten (expenses (self w)).
Proof.
  intros Ok. unfold snapshot_ok in Ok.
  apply andb_prop in Ok as [Ok Oe]. apply andb_prop in Ok as [Ok Og].
  apply andb_prop in Ok as [Oi Os].
  unfold expenses_ok in Oe. apply andb_prop in Oe as [Wk Oe].
  apply flatten_entries_ok in Oe.
  unfold FinanceData_init, save_data_to_file, read_data_from_file, with_self.
  cbn [text_file self database]. unfold snapshot_text.
  rewrite readlines_written.
  - unfold snapshot_lines. rewrite map_app. cbn [map app read_lines].
    rewrite <- !app_assoc.
    rewrite read_income_line by assumption.
    rewrite read_savings_line by assumption.
    rewrite read_goal_line by assumption.
    rewrite read_expenses_header.
    rewrite read_expense_lines by (assumption || reflexivity).
    cbn [obj cursor fresh expenses set_goal set_savings set_income
         set_expenses income savings savings_goal original_savings deficit
         in_expenses_section].
    eexists. split; [reflexivity|].
    cbn [self database income savings savings_goal expenses original_savings
         set_original_savings].
    rewrite rows_of_fold_insert.
    rewrite (fold_append_flatten (expenses (self w)) []);
      [now repeat split| assumption |].
    clear. induction (expenses (self w)) as [|[k items] rest IH];
      [reflexivity|exact IH].
  - unfold snapshot_lines. rewrite forallb_app.
    rewrite expense_lines_one_line by assumption.
    apply numeral_ok_inv in Oi as (_ & _ & Ti).
    apply numeral_ok_inv in Os as (_ & _ & Ts).
    apply numeral_ok_inv in Og as (_ & _ & Tg).
    apply token_one_line in Ti, Ts, Tg.
    cbn [forallb]. rewrite !one_line_app, Ti, Ts, Tg. reflexivity.
Qed.

Lemma snapshot_round_trip_witness :
  exists w',
    FinanceData_init (save_data_to_file stocked) = Returned w'
    /\ income (self w') = income (self stocked)
    /\ savings (self w') = savings (self stocked)
    /\ savings_goal (self w') = savings_goal (self stocked)
    /\ expenses (self w') = expenses (self stocked)
    /\ original_savings (self w') = savings (self stocked)
    /\ rows_of (database w') = flatten (expenses (self stocked)).
Proof. apply (snapshot_round_trip stocked). vm_compute. reflexivity. Defined.

(** C3, as the claim words it, fails on a description that holds the
    separator: the entry [("Bread, sliced", 2)] is written as a line of
    four fields, and the load of that snapshot raises [ValueError], into a
    new object as well as into the one that wrote it. It also fails on any
    ledger with expenses when the object that wrote the snapshot loads it:
    the entries of the file are appended to those in memory. *)
Lemma round_trip_breaks :
  let w := mkWorld (mkFinanceData 10 5 0
                      [(lit "Food", [(lit "Bread, sliced", 2)])] 5 0)
             None [] in
  (text_file (save_data_to_file w)
   = Some (snapshot ["Income: 10"; "Savings: 5"; "SavingsGoal: 0";
                     "Expenses:"; "Food, Bread, sliced, 2"]%string)
   /\ (exists w', FinanceData_init (save_data_to_file w) = Raised ValueError w')
   /\ (exists w', read_data_from_file (save_data_to_file w) = Raised ValueError w'))
  /\ (exists w',
        read_data_from_file (save_data_to_file stocked) = Returned w'
        /\ get (lit "Transport") (expenses (self stocked)) = [(lit "Gas", 60)]
        /\ get (lit "Transport") (expenses (self w'))
           = [(lit "Gas", 60); (lit "Gas", 60)]
        /\ expenses (self w') <> expenses (self stocked)).
Proof.
  cbv zeta. split; [split; [|split]|].
  - vm_compute. reflexivity.
  - eexists. vm_compute. reflexivity.
  - eexists. vm_compute. reflexivity.
  - eexists. split; [vm_compute; reflexivity|].
    split; [reflexivity|]. split; [vm_compute; reflexivity|].
    intros E. vm_compute in E. discriminate.
Qed.

(** * Further properties *)

(** ** The operations in memory *)

(** [add_income] and [set_savings_goal] end in [save_data], which does
    nothing: the snapshot and the table stay as they were, so an object
    built afterwards is the one that would have been built before. *)
Theorem income_and_goal_not_persisted `{Numerals} (amount goal : Z) (w : World) :
  text_file (add_income amount w) = text_file w
  /\ database (add_income amount w) = database w
  /\ text_file (set_savings_goal goal w) = text_file w
  /\ database (set_savings_goal goal w) = database w
  /\ FinanceData_init (add_income amount w) = FinanceData_init w
  /\ FinanceData_init (set_savings_goal goal w) = FinanceData_init w.
Proof.
  unfold FinanceData_init, add_income, set_savings_goal, save_data, with_self.
  destruct (0 <? amount), (0 <=? goal); repeat split.
Qed.

Lemma keys_append_item (k : str) (x : item) (e : expenses_dict) :
  map fst (append_item k x e)
  = if mem k e then map fst e else map fst e ++ [k].
Proof.
  induction e as [|[k0 items] rest IH]; [reflexivity|].
  cbn [append_item mem existsb fst map].
  destruct (Py.eqb k0 k); cbn [orb map fst]; [reflexivity|].
  fold (mem k rest). rewrite IH. now destruct (mem k rest).
Qed.

Lemma add_expense_expenses `{Numerals} (c d : str) (a : Z) (flag : bool) (w : World) :
  0 < a ->
  expenses (self (add_expense c d a flag w))
  = append_item c (d, a) (expenses (self w)).
Proof.
  intros Ha. rewrite add_expense_self by assumption.
  now destruct (adjust_keeps
                  (with_self
                     (set_expenses (append_item c (d, a) (expenses (self w)))
                        (self w)) w)) as [-> _].
Qed.

(** [add_expense] with a positive amount puts the entry at the end of its
    category and leaves every other category as it was; the categories
    keep their order, a new one coming last. *)
Theorem add_expense_appends `{Numerals} (category description other : str)
  (amount : Z) (save_to_db : bool) (w : World) :
  0 < amount ->
  other <> category ->
  let w' := add_expense category description amount save_to_db w in
  get category (expenses (self w'))
  = get category (expenses (self w)) ++ [(description, amount)]
  /\ get other (expenses (self w')) = get other (expenses (self w))
  /\ map fst (expenses (self w'))
     = if mem category (expenses (self w)) then map fst (expenses (self w))
       else map fst (expenses (self w)) ++ [category].
Proof.
  intros Ha Ho w'. unfold w'. rewrite add_expense_expenses by assumption.
  rewrite !get_append_item, eqb_refl, keys_append_item.
  assert (E : Py.eqb category other = false) by (apply eqb_neq; congruence).
  rewrite E, app_nil_r. now repeat split.
Qed.

Lemma add_expense_appends_witness :
  let w' := add_expense (lit "Groceries") (lit "Eggs") 4 true stocked in
  get (lit "Groceries") (expenses (self w'))
  = get (lit "Groceries") (expenses (self stocked)) ++ [(lit "Eggs", 4)]
  /\ get (lit "Transport") (expenses (self w'))
     = get (lit "Transport") (expenses (self stocked))
  /\ map fst (expenses (self w'))
     = if mem (lit "Groceries") (expenses (self stocked))
       then map fst (expenses (self stocked))
       else map fst (expenses (self stocked)) ++ [lit "Groceries"].
Proof.
  apply (add_expense_appends (lit "Groceries") (lit "Eggs") (lit "Transport")
           4 true stocked).
  - lia.
  - intros E. vm_compute in E. discriminate.
Defined.

Lemma fold_add_from (l : list Z) (a : Z) :
  fold_left Z.add l a = a + fold_left Z.add l 0.
Proof.
  revert a; induction l as [|x l IH]; intros a; simpl; [lia|].
  rewrite (IH (a + x)), (IH x). lia.
Qed.

Lemma total_expenses_cons (k : str) (items : list item) (rest : expenses_dict) :
  total_expenses ((k, items) :: rest)
  = fold_left Z.add (map snd items) 0 + total_expenses rest.
Proof.
  unfold total_expenses, flatten. cbn [flat_map fst snd].
  rewrite map_app, fold_left_app, map_map. cbn [snd].
  now rewrite fold_add_from.
Qed.

Lemma total_expenses_append_item (k d : str) (a : Z) (e : expenses_dict) :
  total_expenses (append_item k (d, a) e) = total_expenses e + a.
Proof.
  induction e as [|[k0 items] rest IH]; [reflexivity|].
  cbn [append_item]. destruct (Py.eqb k0 k).
  - rewrite !total_expenses_cons, map_app, fold_left_app. simpl.
    unfold item in *. lia.
  - rewrite !total_expenses_cons, IH. lia.
Qed.

(** [add_expense] with a positive amount raises the total of the expenses
    by exactly that amount, when the amounts are whole numbers whose
    left-to-right sums, before and after the call, stay in the exact range.
    (The new entry is summed inside its category, so on other numbers the
    rounding of the sum can differ.) *)
Theorem add_expense_total `{Numerals} (category description : str) (amount : Z)
  (save_to_db : bool) (w : World) :
  0 < amount ->
  exact amount ->
  sums_exact (expenses (self w)) ->
  sums_exact (expenses (self (add_expense category description amount
                                save_to_db w))) ->
  total_expenses (expenses (self (add_expense category description amount
                                    save_to_db w)))
  = total_expenses (expenses (self w)) + amount.
Proof.
  intros Ha _ _ _. rewrite add_expense_expenses by assumption.
  apply total_expenses_append_item.
Qed.

Lemma add_expense_total_witness :
  total_expenses (expenses (self (add_expense (lit "Groceries") (lit "Eggs") 4
                                    false stocked)))
  = total_expenses (expenses (self stocked)) + 4.
Proof.
  apply (add_expense_total (lit "Groceries") (lit "Eggs") 4 false stocked).
  - lia.
  - unfold exact. lia.
  - unfold sums_exact, amounts. cbn. unfold exact. lia.
  - unfold sums_exact, amounts. vm_compute. repeat split; discriminate.
Defined.

Lemma add_expense_effect `{Numerals} (category description : str)
  (amount : Z) (save_to_db : bool) (w : World) :
  0 < amount ->
  let w' := add_expense category description amount save_to_db w in
  let t := total_expenses (expenses (self w)) + amount in
  deficit (self w')
  = (if income (self w) <? t then t - income (self w) else deficit (self w))
  /\ savings (self w')
     = (if income (self w) <? t
        then Z.max (savings (self w) - (t - income (self w))) 0
        else savings (self w))
  /\ income (self w') = income (self w)
  /\ savings_goal (self w') = savings_goal (self w)
  /\ original_savings (self w') = original_savings (self w).
Proof.
  intros Ha w' t. unfold w'. rewrite add_expense_self by assumption.
  set (w0 := with_self _ w).
  assert (T : total_expenses (expenses (self w0)) = t).
  { unfold w0. cbn [with_self self set_expenses expenses].
    apply total_expenses_append_item. }
  assert (I : income (self w0) = income (self w)) by reflexivity.
  destruct (Z.ltb_spec (income (self w)) t) as [Hlt|Hle].
  - assert (Hlt0 : income (self w0) < total_expenses (expenses (self w0))) by lia.
    destruct (adjust_short w0 Hlt0) as (D & S & I' & _ & G).
    cbv zeta in D, S, I', G. rewrite D, S, I', G, T, I.
    repeat split.
    unfold adjust_savings_if_needed, save_data. cbv zeta.
    destruct (_ <? 0); [|reflexivity]. cbn. now destruct (_ <? 0).
  - rewrite adjust_covered by lia. now repeat split.
Qed.

(** What [add_expense] with a positive amount does to the accounts, when
    the amounts are whole numbers and the sums before and after the call,
    the income, the savings and the difference of total and income stay in
    the exact range (the amount is then also one the table stores). With
    [t] the total including the new amount: when [t] exceeds the income,
    the deficit becomes [t - income] and savings lose that whole shortfall,
    down to 0 at most; otherwise deficit and savings stay as they were.
    Income, goal and original savings are never touched. *)
Theorem add_expense_accounts `{Numerals} (category description : str)
  (amount : Z) (save_to_db : bool) (w : World) :
  0 < amount ->
  exact amount ->
  sums_exact (expenses (self w)) ->
  sums_exact (expenses (self (add_expense category description amount
                                save_to_db w))) ->
  exact (income (self w)) ->
  exact (savings (self w)) ->
  exact (total_expenses (expenses (self w)) + amount - income (self w)) ->
  let w' := add_expense category description amount save_to_db w in
  let t := total_expenses (expenses (self w)) + amount in
  deficit (self w')
  = (if income (self w) <? t then t - income (self w) else deficit (self w))
  /\ savings (self w')
     = (if income (self w) <? t
        then Z.max (savings (self w) - (t - income (self w))) 0
        else savings (self w))
  /\ income (self w') = income (self w)
  /\ savings_goal (self w') = savings_goal (self w)
  /\ original_savings (self w') = original_savings (self w).
Proof. intros Ha _ _ _ _ _ _. now apply add_expense_effect. Qed.

Lemma add_expense_accounts_witness :
  let w' := add_expense (lit "Rent") (lit "Monthly Rent") 5000 true stocked in
  let t := total_expenses (expenses (self stocked)) + 5000 in
  deficit (self w')
  = (if income (self stocked) <? t then t - income (self stocked)
     else deficit (self stocked))
  /\ savings (self w')
     = (if income (self stocked) <? t
        then Z.max (savings (self stocked) - (t - income (self stocked))) 0
        else savings (self stocked))
  /\ income (self w') = income (self stocked)
  /\ savings_goal (self w') = savings_goal (self stocked)
  /\ original_savings (self w') = original_savings (self stocked).
Proof.
  apply (add_expense_accounts (lit "Rent") (lit "Monthly Rent") 5000 true stocked).
  - lia.
  - unfold exact. lia.
  - unfold sums_exact, amounts. cbn. unfold exact. lia.
  - unfold sums_exact, amounts. vm_compute. repeat split; discriminate.
  - unfold exact. simpl. lia.
  - unfold exact. simpl. lia.
  - vm_compute. split; discriminate.
Defined.

Lemma adjust_short_world (w : World) :
  income (self w) < total_expenses (expenses (self w)) ->
  adjust_savings_if_needed w
  = with_self
      (set_savings
         (Z.max (savings (self w)
                 - (total_expenses (expenses (self w)) - income (self w))) 0)
         (set_deficit (total_expenses (expenses (self w)) - income (self w))
            (self w))) w.
Proof.
  intros Hlt. unfold adjust_savings_if_needed, save_data. cbv zeta.
  destruct (Z.ltb_spec (income (self w) - total_expenses (expenses (self w))) 0);
    [|lia].
  unfold with_self, set_savings, set_deficit.
  cbn [income savings savings_goal expenses original_savings deficit].
  destruct (Z.ltb_spec
              (savings (self w)
               - - (income (self w) - total_expenses (expenses (self w)))) 0);
    cbn [income savings savings_goal expenses original_savings deficit];
    do 2 f_equal; lia.
Qed.

(** On whole-number amounts whose sum, income, savings and difference of
    total and income stay in the exact range: calling
    [adjust_savings_if_needed] a second time changes nothing exactly when
    the expenses do not exceed the income or when savings do not exceed the
    shortfall (the first call has then emptied them). *)
Theorem adjust_again_same_iff (w : World) :
  sums_exact (expenses (self w)) ->
  exact (income (self w)) ->
  exact (savings (self w)) ->
  exact (total_expenses (expenses (self w)) - income (self w)) ->
  adjust_savings_if_needed (adjust_savings_if_needed w)
  = adjust_savings_if_needed w
  <-> total_expenses (expenses (self w)) <= income (self w)
      \/ savings (self w)
         <= total_expenses (expenses (self w)) - income (self w).
Proof.
  intros _ _ _ _.
  destruct (Z_lt_le_dec (income (self w)) (total_expenses (expenses (self w))))
    as [Hlt|Hle].
  2:{ rewrite !(adjust_covered w Hle). split; [now left|reflexivity]. }
  set (w1 := adjust_savings_if_needed w).
  destruct (adjust_short w Hlt) as (_ & S1 & I1 & X1 & _).
  cbv zeta in S1, I1, X1. fold w1 in S1, I1, X1.
  assert (Hlt1 : income (self w1) < total_expenses (expenses (self w1))).
  { rewrite I1, X1. exact Hlt. }
  split.
  - intros E. right.
    destruct (adjust_short w1 Hlt1) as (_ & S2 & _). cbv zeta in S2.
    rewrite E, I1, X1, S1 in S2. lia.
  - intros [Hle|Hs]; [lia|].
    rewrite (adjust_short_world w1 Hlt1), I1, X1, S1.
    unfold w1. rewrite (adjust_short_world w Hlt).
    unfold with_self, set_savings, set_deficit.
    cbn [self text_file database income savings savings_goal expenses
         original_savings deficit].
    do 2 f_equal. lia.
Qed.

Lemma adjust_again_same_iff_witness :
  let w := mkWorld (mkFinanceData 500 2000 0
                      [(lit "Rent", [(lit "Monthly Rent", 1000)])] 2000 0)
             None [] in
  adjust_savings_if_needed (adjust_savings_if_needed w)
  = adjust_savings_if_needed w
  <-> total_expenses (expenses (self w)) <= income (self w)
      \/ savings (self w)
         <= total_expenses (expenses (self w)) - income (self w).
Proof.
  intros w. apply (adjust_again_same_iff w).
  - unfold sums_exact, amounts. cbn. unfold exact. lia.
  - unfold exact. simpl. lia.
  - unfold exact. simpl. lia.
  - vm_compute. split; discriminate.
Defined.

(** *** The dictionary stays well keyed *)

Lemma mem_append_item (k c : str) (x : item) (e : expenses_dict) :
  mem k (append_item c x e) = mem k e || Py.eqb c k.
Proof.
  induction e as [|[k0 items] rest IH].
  - cbn. now rewrite orb_false_r.
  - cbn [append_item]. destruct (Py.eqb k0 c) eqn:E.
    + apply eqb_eq in E as ->. cbn [mem existsb fst]. fold (mem k rest).
      now destruct (Py.eqb c k), (mem k rest).
    + cbn [mem existsb fst]. fold (mem k rest) (mem k (append_item c x rest)).
      rewrite IH. now rewrite orb_assoc.
Qed.

Lemma well_keyed_append_item (c : str) (x : item) (e : expenses_dict) :
  well_keyed e = true -> well_keyed (append_item c x e) = true.
Proof.
  induction e as [|[k0 items] rest IH]; [reflexivity|].
  cbn [well_keyed append_item]. intros W.
  apply andb_prop in W as [W Wr]. apply andb_prop in W as [Wk Wi].
  destruct (Py.eqb k0 c) eqn:E; cbn [well_keyed].
  - rewrite Wk, Wr, length_app. cbn [List.length].
    now rewrite Nat.add_1_r.
  - rewrite mem_append_item. apply negb_true_iff in Wk.
    assert (E' : Py.eqb c k0 = false).
    { apply eqb_neq. apply eqb_neq in E. congruence. }
    now rewrite Wk, E', Wi, IH.
Qed.

Lemma well_keyed_fold_append (es : list (str * str * Z)) (e : expenses_dict) :
  well_keyed e = true -> well_keyed (fold_left append_entry es e) = true.
Proof.
  revert e; induction es as [|x es IH]; intros e W; [exact W|].
  cbn [fold_left]. apply IH. now apply well_keyed_append_item.
Qed.

(** What the load leaves in the dictionary, however it ends: what was
    there, with entries appended. *)
Lemma load_dictionary `{Numerals} (w : World) :
  exists es,
    expenses (self (world_of (read_data_from_file w)))
    = fold_left append_entry es (expenses (self w)).
Proof.
  destruct (read_data_from_file w) as [w'|e w'] eqn:R.
  - apply read_data_returned in R as (_ & X & _). eexists. exact X.
  - unfold read_data_from_file in R.
    destruct (text_file w); [|discriminate].
    destruct (read_lines _ _) as [[e1 st]|st] eqn:L; [|discriminate].
    inversion R; subst. apply read_lines_raised in L as (es & X).
    exists es. exact X.
Qed.

Lemma run_expenses `{Numerals} (m : mutation) (w : World) :
  expenses (self (run m w)) = expenses (self w)
  \/ exists c d a, 0 < a
       /\ expenses (self (run m w)) = append_item c (d, a) (expenses (self w)).
Proof.
  destruct m as [a|g|c d a flag|]; cbn [run].
  - left. unfold add_income, save_data. now destruct (0 <? a).
  - left. unfold set_savings_goal, save_data. now destruct (0 <=? g).
  - destruct (Z_lt_le_dec 0 a) as [Ha|Ha].
    + right. exists c, d, a. split; [assumption|].
      now apply add_expense_expenses.
    + left. now rewrite add_expense_ignored.
  - left. apply adjust_keeps.
Qed.

(** No operation gives the dictionary a key twice or a category without
    entry: a mutation in memory keeps a well-keyed dictionary well keyed,
    and so does the load, whether it returns or raises. *)
Theorem dictionary_stays_well_keyed `{Numerals} (m : mutation) (w : World) :
  well_keyed (expenses (self w)) = true ->
  well_keyed (expenses (self (run m w))) = true
  /\ well_keyed (expenses (self (world_of (read_data_from_file w)))) = true.
Proof.
  intros W. split.
  - destruct (run_expenses m w) as [->|(c & d & a & _ & ->)]; [exact W|].
    now apply well_keyed_append_item.
  - destruct (load_dictionary w) as (es & ->).
    now apply well_keyed_fold_append.
Qed.

Lemma dictionary_stays_well_keyed_witness :
  well_keyed (expenses (self (run (AddExpense (lit "Groceries") (lit "Eggs") 4 true)
                                stocked))) = true
  /\ well_keyed
       (expenses (self (world_of (read_data_from_file stocked)))) = true.
Proof.
  apply (dictionary_stays_well_keyed
           (AddExpense (lit "Groceries") (lit "Eggs") 4 true) stocked).
  reflexivity.
Defined.

Lemma run_income `{Numerals} (m : mutation) (w : World) :
  income (self w) <= income (self (run m w)).
Proof.
  destruct m as [a|g|c d a flag|]; cbn [run].
  - unfold add_income, save_data. destruct (Z.ltb_spec 0 a); cbn; lia.
  - unfold set_savings_goal, save_data. destruct (0 <=? g); cbn; lia.
  - destruct (Z_lt_le_dec 0 a) as [Ha|Ha].
    + destruct (add_expense_effect c d a flag w Ha) as (_ & _ & -> & _). lia.
    + rewrite add_expense_ignored by assumption. lia.
  - destruct (Z_lt_le_dec (income (self w)) (total_expenses (expenses (self w))))
      as [Hlt|Hle].
    + destruct (adjust_short w Hlt) as (_ & _ & -> & _). lia.
    + rewrite adjust_covered by assumption. lia.
Qed.

(** No mutation in memory lowers the income or the total of the expenses,
    and none removes or reorders an entry: every category holds afterwards
    what it held, possibly followed by one more entry. *)
Theorem ledger_never_shrinks `{Numerals} (m : mutation) (w : World)
  (category : str) :
  income (self w) <= income (self (run m w))
  /\ total_expenses (expenses (self w))
     <= total_expenses (expenses (self (run m w)))
  /\ exists extra,
       get category (expenses (self (run m w)))
       = get category (expenses (self w)) ++ extra.
Proof.
  split; [apply run_income|].
  destruct (run_expenses m w) as [->|(c & d & a & Ha & ->)].
  - split; [lia|]. exists []. now rewrite app_nil_r.
  - rewrite total_expenses_append_item, get_append_item.
    split; [lia|]. eexists. reflexivity.
Qed.

Lemma run_savings `{Numerals} (m : mutation) (w : World) :
  0 <= savings (self w) ->
  0 <= savings (self (run m w)) <= savings (self w).
Proof.
  intros Hs.
  assert (A : forall v, 0 <= savings (self v) ->
                0 <= savings (self (adjust_savings_if_needed v))
                <= savings (self v)).
  { intros v Hv.
    destruct (Z_lt_le_dec (income (self v)) (total_expenses (expenses (self v))))
      as [Hlt|Hle].
    - destruct (adjust_short v Hlt) as (_ & -> & _). lia.
    - rewrite adjust_covered by assumption. lia. }
  destruct m as [a|g|c d a flag|]; cbn [run].
  - unfold add_income, save_data. destruct (0 <? a); cbn; lia.
  - unfold set_savings_goal, save_data. destruct (0 <=? g); cbn; lia.
  - destruct (Z_lt_le_dec 0 a) as [Ha|Ha].
    + rewrite add_expense_self by assumption.
      set (w0 := with_self _ w). exact (A w0 Hs).
    + rewrite add_expense_ignored by assumption. lia.
  - now apply A.
Qed.

(** No mutation in memory raises savings that are not negative: only the
    load can. *)
Theorem savings_never_rise `{Numerals} (m : mutation) (w : World) :
  0 <= savings (self w) ->
  savings (self (run m w)) <= savings (self w).
Proof. intros Hs. now apply run_savings. Qed.

Lemma savings_never_rise_witness :
  savings (self (run (AddExpense (lit "Rent") (lit "Monthly Rent") 5000 true)
                   stocked))
  <= savings (self stocked).
Proof.
  apply (savings_never_rise
           (AddExpense (lit "Rent") (lit "Monthly Rent") 5000 true) stocked).
  simpl. lia.
Defined.

(** ** The load, line by line *)

(** What a line that does not raise does to the three numbers, and that a
    field line that does not raise holds a number. *)
Lemma read_line_fields `{Numerals} (st st1 : loop_state) (line : str) :
  read_line st line = inr st1 ->
  income (obj st1) = last_value IncomeLine [line] (income (obj st))
  /\ savings (obj st1) = last_value SavingsLine [line] (savings (obj st))
  /\ savings_goal (obj st1) = last_value GoalLine [line] (savings_goal (obj st))
  /\ deficit (obj st1) = deficit (obj st)
  /\ original_savings (obj st1) = original_savings (obj st)
  /\ (is_field_line line = true -> py_float (header_value line) <> None).
Proof.
  unfold read_line, last_value, kind_of, is_field_line. cbn [fold_left].
  destruct (Py.startswith line (lit "Income:")); cbn [kind_eqb orb].
  { destruct (py_float (header_value line)); [|discriminate].
    intros [= <-]. repeat split. discriminate. }
  destruct (Py.startswith line (lit "Savings:")); cbn [kind_eqb orb].
  { destruct (py_float (header_value line)); [|discriminate].
    intros [= <-]. repeat split. discriminate. }
  destruct (Py.startswith line (lit "SavingsGoal:")); cbn [kind_eqb orb].
  { destruct (py_float (header_value line)); [|discriminate].
    intros [= <-]. repeat split. discriminate. }
  destruct (Py.startswith line (lit "Expenses:")); cbn [kind_eqb].
  { intros [= <-]. repeat split. discriminate. }
  destruct (in_expenses_section st && negb (Py.eqb (Py.strip line) [])).
  2:{ intros [= <-]. repeat split. discriminate. }
  destruct (Py.split (Py.strip line) (lit ", ")) as [|c [|d [|a [|? ?]]]];
    try discriminate.
  destruct (py_float a); [|discriminate].
  intros [= <-]. repeat split. discriminate.
Qed.

Lemma last_value_cons `{Numerals} (k : line_kind) (line : str) (lines : list str)
  (v : Z) :
  last_value k (line :: lines) v = last_value k lines (last_value k [line] v).
Proof. reflexivity. Qed.

Lemma read_lines_fields `{Numerals} (lines : list str) (st st' : loop_state) :
  read_lines st lines = inr st' ->
  income (obj st') = last_value IncomeLine lines (income (obj st))
  /\ savings (obj st') = last_value SavingsLine lines (savings (obj st))
  /\ savings_goal (obj st') = last_value GoalLine lines (savings_goal (obj st))
  /\ deficit (obj st') = deficit (obj st)
  /\ original_savings (obj st') = original_savings (obj st)
  /\ Forall (fun line => is_field_line line = true ->
                         py_float (header_value line) <> None) lines.
Proof.
  revert st; induction lines as [|line rest IH]; intros st E; simpl in E.
  - injection E as <-. repeat split. constructor.
  - destruct (read_line st line) as [e|st1] eqn:R; [discriminate|].
    apply read_line_fields in R as (I1 & S1 & G1 & D1 & O1 & F1).
    apply IH in E as (I2 & S2 & G2 & D2 & O2 & F2).
    rewrite (last_value_cons IncomeLine line rest),
      (last_value_cons SavingsLine line rest),
      (last_value_cons GoalLine line rest), <- I1, <- S1, <- G1, <- D1, <- O1.
    repeat split; try assumption. now constructor.
Qed.

(** A field line whose value [float] rejects makes the load leave with
    [ValueError], wherever the line stands in the snapshot; the table and
    the file are then as before the call. *)
Theorem malformed_field_line_aborts `{Numerals} (w : World) (line : str) :
  In line (file_lines w) ->
  is_field_line line = true ->
  py_float (header_value line) = None ->
  exists w',
    read_data_from_file w = Raised ValueError w'
    /\ database w' = database w
    /\ text_file w' = text_file w.
Proof.
  intros Hin Hf Hbad. unfold read_data_from_file, file_lines in *.
  destruct (text_file w) as [content|]; [|contradiction].
  destruct (read_lines _ _) as [[[] st]|st] eqn:R.
  - eexists. now repeat split.
  - apply read_lines_fields in R as (_ & _ & _ & _ & _ & F).
    rewrite Forall_forall in F. now destruct (F line Hin Hf).
Qed.

Lemma malformed_field_line_aborts_witness :
  let w := mkWorld fresh
             (Some (snapshot ["Income: 10"; "Expenses:"; "Food, Bread, 2";
                              "Savings: a lot"]%string))
             [mkRow 1 (lit "Rent") (lit "Monthly Rent") 1000] in
  exists w',
    read_data_from_file w = Raised ValueError w'
    /\ database w' = database w
    /\ text_file w' = text_file w.
Proof.
  intros w.
  apply (malformed_field_line_aborts w (lit "Savings: a lot" ++ [LF])).
  - vm_compute. do 3 right. left. reflexivity.
  - reflexivity.
  - reflexivity.
Defined.

Lemma load_fields `{Numerals} (w w' : World) :
  read_data_from_file w = Returned w' ->
  income (self w') = last_value IncomeLine (file_lines w) (income (self w))
  /\ savings (self w') = last_value SavingsLine (file_lines w) (savings (self w))
  /\ savings_goal (self w')
     = last_value GoalLine (file_lines w) (savings_goal (self w))
  /\ deficit (self w') = deficit (self w)
  /\ original_savings (self w')
     = match text_file w with
       | Some _ => savings (self w')
       | None => original_savings (self w)
       end.
Proof.
  unfold read_data_from_file, file_lines.
  destruct (text_file w) as [content|].
  - destruct (read_lines _ _) as [[e st]|st] eqn:R; [discriminate|].
    intros [= <-]. apply read_lines_fields in R as (I & S & G & D & _).
    cbn [self obj income savings savings_goal deficit original_savings
         set_original_savings] in *.
    now repeat split.
  - intros [= <-]. now repeat split.
Qed.

(** When the load returns, each of income, savings and goal is the number
    of the last line of its kind in the file, and is left alone when the
    file has no such line; the deficit is never touched, and the original
    savings become the savings unless the file is missing. *)
Theorem last_field_line_wins `{Numerals} (w w' : World) :
  read_data_from_file w = Returned w' ->
  income (self w') = last_value IncomeLine (file_lines w) (income (self w))
  /\ savings (self w') = last_value SavingsLine (file_lines w) (savings (self w))
  /\ savings_goal (self w')
     = last_value GoalLine (file_lines w) (savings_goal (self w))
  /\ deficit (self w') = deficit (self w)
  /\ original_savings (self w')
     = match text_file w with
       | Some _ => savings (self w')
       | None => original_savings (self w)
       end.
Proof. apply load_fields. Qed.

Lemma last_field_line_wins_witness :
  let w := mkWorld (mkFinanceData 1 2 3 [] 4 5)
             (Some (snapshot ["Savings: 20"; "Income: 10"; "Expenses:";
                              "Savings: 30"]%string)) [] in
  let w' := world_of (read_data_from_file w) in
  income (self w') = last_value IncomeLine (file_lines w) (income (self w))
  /\ savings (self w') = last_value SavingsLine (file_lines w) (savings (self w))
  /\ savings_goal (self w')
     = last_value GoalLine (file_lines w) (savings_goal (self w))
  /\ deficit (self w') = deficit (self w)
  /\ original_savings (self w')
     = match text_file w with
       | Some _ => savings (self w')
       | None => original_savings (self w)
       end.
Proof.
  intros w w'. apply (last_field_line_wins w w'). vm_compute. reflexivity.
Defined.

Lemma no_section_no_expense_lines (lines : list str) :
  forallb (fun line => negb (Py.startswith line (lit "Expenses:"))) lines = true ->
  expense_lines false lines = [].
Proof.
  induction lines as [|line rest IH]; [reflexivity|].
  cbn [forallb expense_lines]. intros E. apply andb_prop in E as [E1 E2].
  apply negb_true_iff in E1. rewrite E1. cbn [andb].
  destruct (is_field_line line); now apply IH.
Qed.

(** The loop on a file without expense line, whether it returns or
    raises: dictionary and cursor are where they were. *)
Lemma read_lines_no_expense `{Numerals} (lines : list str) (st : loop_state) :
  expense_lines (in_expenses_section st) lines = [] ->
  match read_lines st lines with
  | inr st' | inl (_, st') =>
      expenses (obj st') = expenses (obj st) /\ cursor st' = cursor st
  end.
Proof.
  revert st; induction lines as [|line rest IH]; intros st E.
  - now split.
  - cbn [read_lines].
    destruct (read_line st line) as [e|st1] eqn:R; [now split|].
    apply read_line_returned in R as (F1 & es & P & X & C).
    rewrite expense_lines_cons in E. apply app_eq_nil in E as [E1 E2].
    rewrite E1 in P. destruct es; [|discriminate]. cbn [fold_left] in X, C.
    rewrite <- F1 in E2. specialize (IH st1 E2).
    destruct (read_lines st1 rest) as [[e st']|st']; now rewrite <- X, <- C.
Qed.

(** Lines are taken for expenses only after a line [Expenses:]. On a file
    without such a line, however its other lines look, the load leaves
    the dictionary as it was, whether it returns or raises, and a load
    that returns leaves the table empty. *)
Theorem no_section_no_expenses `{Numerals} (w : World) :
  forallb (fun line => negb (Py.startswith line (lit "Expenses:")))
    (file_lines w) = true ->
  expenses (self (world_of (read_data_from_file w))) = expenses (self w)
  /\ (forall w', read_data_from_file w = Returned w' -> database w' = []).
Proof.
  intros E. apply no_section_no_expense_lines in E.
  unfold read_data_from_file, file_lines in *.
  destruct (text_file w) as [content|]; [|split; [reflexivity|now intros w' [= <-]]].
  pose proof (read_lines_no_expense (Py.readlines content)
                (mkLoop false (self w) []) E) as L.
  destruct (read_lines _ _) as [[e st]|st]; cbn [world_of self obj cursor] in *.
  - split; [apply L|discriminate].
  - destruct L as [X C]. split; [exact X|]. now intros w' [= <-].
Qed.

Lemma no_section_no_expenses_witness :
  let w := mkWorld (self stocked)
             (Some (snapshot ["Income: 10"; "Food, Bread, 2"]%string))
             [mkRow 1 (lit "Rent") (lit "Monthly Rent") 1000] in
  expenses (self (world_of (read_data_from_file w))) = expenses (self w)
  /\ (forall w', read_data_from_file w = Returned w' -> database w' = []).
Proof. intros w. apply (no_section_no_expenses w). reflexivity. Defined.

(** *** Blank lines *)

Lemma lstrip_nil (s : str) : Py.lstrip s = [] -> forallb Py.isspace s = true.
Proof.
  induction s as [|c t IH]; [reflexivity|]. cbn [Py.lstrip forallb].
  destruct (Py.isspace c); [|discriminate]. exact IH.
Qed.

Lemma lstrip_head (s : str) : no_leading_space (Py.lstrip s) = true.
Proof.
  induction s as [|c t IH]; [reflexivity|]. cbn [Py.lstrip].
  destruct (Py.isspace c) eqn:E; [exact IH|]. cbn [no_leading_space].
  now rewrite E.
Qed.

Lemma strip_nil (s : str) : Py.strip s = [] -> forallb Py.isspace s = true.
Proof.
  unfold Py.strip, Py.rstrip. intros E.
  apply (f_equal (@rev _)) in E. rewrite rev_involutive in E. cbn [rev] in E.
  apply lstrip_nil in E. apply lstrip_nil.
  pose proof (lstrip_head s) as Hd.
  destruct (Py.lstrip s) as [|c t]; [reflexivity|].
  cbn [no_leading_space] in Hd. rewrite forallb_forall in E.
  rewrite (E c) in Hd; [discriminate|]. apply in_rev. rewrite rev_involutive.
  now left.
Qed.

Lemma blank_not_prefixed (line p : str) (x : ascii) :
  Py.strip line = [] ->
  Py.isspace x = false ->
  Py.startswith line (x :: p) = false.
Proof.
  intros E X. apply strip_nil in E. destruct line as [|c t]; [reflexivity|].
  cbn [forallb] in E. apply andb_prop in E as [E _].
  rewrite startswith_cons.
  destruct (Ascii.eqb_spec x c) as [->|_]; [congruence|reflexivity].
Qed.

Lemma read_blank_line `{Numerals} (st : loop_state) (line : str) :
  Py.strip line = [] -> read_line st line = inr st.
Proof.
  intros E. unfold read_line.
  change (lit "Income:") with ("I"%char :: lit "ncome:").
  change (lit "Savings:") with ("S"%char :: lit "avings:").
  change (lit "SavingsGoal:") with ("S"%char :: lit "avingsGoal:").
  change (lit "Expenses:") with ("E"%char :: lit "xpenses:").
  rewrite !blank_not_prefixed by (assumption || reflexivity).
  rewrite E. cbn [Py.eqb negb]. now rewrite andb_false_r.
Qed.

(** A line of blanks only changes nothing wherever it stands, before or
    inside the expenses: the loop gives the same result with and without
    it. *)
Theorem blank_line_skipped `{Numerals} (before rest : list str) (blank : str)
  (st : loop_state) :
  Py.strip blank = [] ->
  read_lines st (before ++ blank :: rest) = read_lines st (before ++ rest).
Proof.
  intros E. revert st; induction before as [|line before IH]; intros st.
  - cbn [app read_lines]. now rewrite read_blank_line.
  - cbn [app read_lines]. destruct (read_line st line); [reflexivity|apply IH].
Qed.

Lemma blank_line_skipped_witness :
  read_lines (mkLoop false fresh [])
    ([lit "Expenses:" ++ [LF]] ++ (lit "  " ++ [LF])
       :: [lit "Food, Bread, 2" ++ [LF]])
  = read_lines (mkLoop false fresh [])
      ([lit "Expenses:" ++ [LF]] ++ [lit "Food, Bread, 2" ++ [LF]]).
Proof.
  apply (blank_line_skipped [lit "Expenses:" ++ [LF]]
           [lit "Food, Bread, 2" ++ [LF]] (lit "  " ++ [LF])
           (mkLoop false fresh [])).
  reflexivity.
Defined.

(** *** Loading twice *)

(** Whether a line raises depends on the line and the flag, not on the
    object or the cursor. *)
Lemma read_line_returns_any `{Numerals} (st st1 st2 : loop_state) (line : str) :
  read_line st line = inr st1 ->
  in_expenses_section st2 = in_expenses_section st ->
  exists st3, read_line st2 line = inr st3.
Proof.
  unfold read_line. intros R F. rewrite F.
  destruct (Py.startswith line (lit "Income:")).
  { destruct (py_float (header_value line)); [eexists; reflexivity|discriminate]. }
  destruct (Py.startswith line (lit "Savings:")).
  { destruct (py_float (header_value line)); [eexists; reflexivity|discriminate]. }
  destruct (Py.startswith line (lit "SavingsGoal:")).
  { destruct (py_float (header_value line)); [eexists; reflexivity|discriminate]. }
  destruct (Py.startswith line (lit "Expenses:")); [eexists; reflexivity|].
  destruct (in_expenses_section st && negb (Py.eqb (Py.strip line) []));
    [|eexists; reflexivity].
  destruct (Py.split (Py.strip line) (lit ", ")) as [|c [|d [|a [|? ?]]]];
    try discriminate.
  destruct (py_float a); [eexists; reflexivity|discriminate].
Qed.

Lemma read_lines_returns_any `{Numerals} (lines : list str)
  (st st' st2 : loop_state) :
  read_lines st lines = inr st' ->
  in_expenses_section st2 = in_expenses_section st ->
  exists st3, read_lines st2 lines = inr st3.
Proof.
  revert st st2; induction lines as [|line rest IH]; intros st st2 R F.
  - eexists. reflexivity.
  - cbn [read_lines] in *.
    destruct (read_line st line) as [e|st1] eqn:R1; [discriminate|].
    destruct (read_line_returns_any st st1 st2 line R1 F) as (st3 & R3).
    rewrite R3. apply (IH st1 st3 R).
    apply read_line_returned in R1 as (F1 & _).
    apply read_line_returned in R3 as (F3 & _). congruence.
Qed.

Lemma last_value_settles `{Numerals} (k : line_kind) (lines : list str) :
  (forall v, last_value k lines v = v)
  \/ (exists x, forall v, last_value k lines v = x).
Proof.
  induction lines as [|line rest IH]; [now left|].
  destruct IH as [Id|(x & C)].
  - unfold last_value in *. cbn [fold_left].
    destruct (kind_eqb (kind_of line) k); [|left; intros v; apply Id].
    destruct (py_float (header_value line)) as [y|]; [|left; intros v; apply Id].
    right. exists y. intros v. apply Id.
  - right. exists x. intros v. rewrite last_value_cons. apply C.
Qed.

Lemma last_value_twice `{Numerals} (k : line_kind) (lines : list str) (v : Z) :
  last_value k lines (last_value k lines v) = last_value k lines v.
Proof.
  destruct (last_value_settles k lines) as [Id|(x & C)].
  - now rewrite !Id.
  - now rewrite !C.
Qed.

(** A load that returned can be repeated: the second load returns too and
    leaves the same table, file, income, savings, goal, deficit and
    original savings as the first; only the dictionary differs, each
    category receiving the entries of the file once more. *)
Theorem load_again `{Numerals} (w w1 : World) (category : str) :
  read_data_from_file w = Returned w1 ->
  exists w2,
    read_data_from_file w1 = Returned w2
    /\ database w2 = database w1
    /\ text_file w2 = text_file w1
    /\ income (self w2) = income (self w1)
    /\ savings (self w2) = savings (self w1)
    /\ savings_goal (self w2) = savings_goal (self w1)
    /\ deficit (self w2) = deficit (self w1)
    /\ original_savings (self w2) = original_savings (self w1)
    /\ get category (expenses (self w2))
       = get category (expenses (self w1))
         ++ entries_of category (rows_of (database w1)).
Proof.
  intros R.
  assert (T : text_file w1 = text_file w).
  { unfold read_data_from_file in R. destruct (text_file w); [|now inversion R].
    destruct (read_lines _ _) as [[e st]|st]; now inversion R. }
  assert (L : file_lines w1 = file_lines w) by (unfold file_lines; now rewrite T).
  assert (exists w2, read_data_from_file w1 = Returned w2) as (w2 & R2).
  { unfold read_data_from_file in *. rewrite T.
    destruct (text_file w) as [content|]; [|eexists; reflexivity].
    destruct (read_lines (mkLoop false (self w) []) _) as [[e st]|st] eqn:E;
      [discriminate|].
    destruct (read_lines_returns_any _ _ _ (mkLoop false (self w1) []) E eq_refl)
      as (st3 & ->).
    eexists. reflexivity. }
  exists w2. split; [exact R2|].
  destruct (read_data_returned w w1 R) as (_ & _ & D1).
  destruct (read_data_returned w1 w2 R2) as (_ & X2 & D2).
  cbv zeta in D1, X2, D2. rewrite L in X2, D2.
  assert (T2 : text_file w2 = text_file w1).
  { unfold read_data_from_file in R2. destruct (text_file w1); [|now inversion R2].
    destruct (read_lines _ _) as [[e st]|st]; now inversion R2. }
  assert (F1 : income (self w1)
               = last_value IncomeLine (file_lines w) (income (self w))
               /\ savings (self w1)
                  = last_value SavingsLine (file_lines w) (savings (self w))
               /\ savings_goal (self w1)
                  = last_value GoalLine (file_lines w) (savings_goal (self w))
               /\ (text_file w <> None ->
                   original_savings (self w1) = savings (self w1))).
  { clear -R. unfold read_data_from_file, file_lines in *.
    destruct (text_file w) as [content|].
    - destruct (read_lines _ _) as [[e st]|st] eqn:E; [discriminate|].
      injection R as <-. apply read_lines_fields in E as (I & S & G & _).
      cbn in *. now repeat split.
    - injection R as <-. repeat split. intros N. now contradiction N. }
  assert (F2 : income (self w2)
               = last_value IncomeLine (file_lines w) (income (self w1))
               /\ savings (self w2)
                  = last_value SavingsLine (file_lines w) (savings (self w1))
               /\ savings_goal (self w2)
                  = last_value GoalLine (file_lines w) (savings_goal (self w1))
               /\ deficit (self w2) = deficit (self w1)
               /\ original_savings (self w2)
                  = match text_file w with
                    | Some _ => savings (self w2)
                    | None => original_savings (self w1)
                    end).
  { clear -R2 T L. unfold read_data_from_file, file_lines in *. rewrite T in *.
    destruct (text_file w) as [content|].
    - destruct (read_lines _ _) as [[e st]|st] eqn:E; [discriminate|].
      injection R2 as <-. apply read_lines_fields in E as (I & S & G & D & _).
      cbn in *. now repeat split.
    - injection R2 as <-. now repeat split. }
  destruct F1 as (I1 & S1 & G1 & O1). destruct F2 as (I2 & S2 & G2 & Df2 & O2).
  rewrite I1 in I2 at 1. rewrite S1 in S2 at 1. rewrite G1 in G2 at 1.
  rewrite last_value_twice in I2, S2, G2.
  repeat split; try congruence.
  - destruct (text_file w); [|exact O2].
    rewrite O2, S2, <- S1. symmetry. apply O1. discriminate.
  - rewrite X2, get_fold_append, D1, rows_of_fold_insert. reflexivity.
Qed.

Lemma load_again_witness :
  let w := save_data_to_file stocked in
  let w1 := world_of (read_data_from_file w) in
  exists w2,
    read_data_from_file w1 = Returned w2
    /\ database w2 = database w1
    /\ text_file w2 = text_file w1
    /\ income (self w2) = income (self w1)
    /\ savings (self w2) = savings (self w1)
    /\ savings_goal (self w2) = savings_goal (self w1)
    /\ deficit (self w2) = deficit (self w1)
    /\ original_savings (self w2) = original_savings (self w1)
    /\ get (lit "Groceries") (expenses (self w2))
       = get (lit "Groceries") (expenses (self w1))
         ++ entries_of (lit "Groceries") (rows_of (database w1)).
Proof.
  intros w w1. apply (load_again w w1 (lit "Groceries")).
  vm_compute. reflexivity.
Defined.

(** ** Starting again from a written snapshot *)

(** The object built from the snapshot of [d], for a [d] the format can
    carry. *)
Lemma init_of_snapshot `{Numerals} (d d0 : FinanceData) (db : list row) :
  snapshot_ok d = true ->
  FinanceData_init (mkWorld d0 (Some (snapshot_text d)) db)
  = Returned
      (mkWorld
         (mkFinanceData (income d) (savings d) (savings_goal d) (expenses d)
            (savings d) 0)
         (Some (snapshot_text d))
         (fold_left insert_entry (flatten (expenses d)) [])).
Proof.
  intros Ok. unfold snapshot_ok in Ok.
  apply andb_prop in Ok as [Ok Oe]. apply andb_prop in Ok as [Ok Og].
  apply andb_prop in Ok as [Oi Os].
  unfold expenses_ok in Oe. apply andb_prop in Oe as [Wk Oe].
  apply flatten_entries_ok in Oe.
  assert (Lines : forallb one_line (snapshot_lines d) = true).
  { unfold snapshot_lines. rewrite forallb_app.
    rewrite expense_lines_one_line by assumption.
    apply numeral_ok_inv in Oi as (_ & _ & Ti).
    apply numeral_ok_inv in Os as (_ & _ & Ts).
    apply numeral_ok_inv in Og as (_ & _ & Tg).
    apply token_one_line in Ti, Ts, Tg.
    cbn [forallb]. rewrite !one_line_app, Ti, Ts, Tg. reflexivity. }
  unfold FinanceData_init, read_data_from_file, with_self.
  cbn [text_file self database]. unfold snapshot_text at 1.
  rewrite readlines_written by assumption.
  unfold snapshot_lines. rewrite map_app. cbn [map app read_lines].
  rewrite <- !app_assoc.
  rewrite read_income_line by assumption.
  rewrite read_savings_line by assumption.
  rewrite read_goal_line by assumption.
  rewrite read_expenses_header.
  rewrite read_expense_lines by (assumption || reflexivity).
  cbn [obj cursor fresh expenses set_goal set_savings set_income
       set_expenses income savings savings_goal original_savings deficit
       in_expenses_section set_original_savings].
  rewrite (fold_append_flatten (expenses d) []); [reflexivity|assumption|].
  clear. induction (expenses d) as [|[k items] rest IH]; [reflexivity|exact IH].
Qed.

(** The snapshot [add_expense] writes holds income, savings, goal and
    expenses as they are after the call, hence also income and goal set
    earlier without being saved. An object built from it has these four,
    but its deficit is 0 whatever the deficit was, its original savings are
    the savings already reduced, and its table holds every entry of the
    dictionary, also those added with [save_to_db=False]. The amount is a
    whole number in the exact range, which the table takes as it is. *)
Theorem restart_after_expense `{Numerals} (category description : str)
  (amount : Z) (save_to_db : bool) (w : World) :
  0 < amount ->
  exact amount ->
  let w1 := add_expense category description amount save_to_db w in
  snapshot_ok (self w1) = true ->
  exists w2,
    FinanceData_init w1 = Returned w2
    /\ income (self w2) = income (self w1)
    /\ savings (self w2) = savings (self w1)
    /\ savings_goal (self w2) = savings_goal (self w1)
    /\ expenses (self w2) = expenses (self w1)
    /\ deficit (self w2) = 0
    /\ original_savings (self w2) = savings (self w1)
    /\ rows_of (database w2) = flatten (expenses (self w1)).
Proof.
  intros Ha _ w1 Ok.
  assert (E : w1 = mkWorld (self w1) (Some (snapshot_text (self w1))) (database w1)).
  { unfold w1, add_expense. destruct (Z.ltb_spec 0 amount); [|lia].
    reflexivity. }
  assert (I : FinanceData_init w1
              = FinanceData_init
                  (mkWorld (self w1) (Some (snapshot_text (self w1)))
                     (database w1))) by (f_equal; exact E).
  rewrite I, (init_of_snapshot _ _ _ Ok).
  eexists. split; [reflexivity|].
  cbn [self database income savings savings_goal expenses deficit
       original_savings].
  rewrite rows_of_fold_insert. now repeat split.
Qed.

Lemma restart_after_expense_witness :
  let w1 := add_expense (lit "Rent") (lit "Monthly Rent") 5000 false
              (add_income 100 stocked) in
  exists w2,
    FinanceData_init w1 = Returned w2
    /\ income (self w2) = income (self w1)
    /\ savings (self w2) = savings (self w1)
    /\ savings_goal (self w2) = savings_goal (self w1)
    /\ expenses (self w2) = expenses (self w1)
    /\ deficit (self w2) = 0
    /\ original_savings (self w2) = savings (self w1)
    /\ rows_of (database w2) = flatten (expenses (self w1)).
Proof.
  apply (restart_after_expense (lit "Rent") (lit "Monthly Rent") 5000 false
           (add_income 100 stocked)).
  - lia.
  - unfold exact. lia.
  - vm_compute. reflexivity.
Defined.

(** ** The charts *)

Lemma remaining_budget_positive (d : FinanceData) :
  0 < remaining_budget d <-> total_expenses (expenses d) < income d.
Proof. unfold remaining_budget. lia. Qed.

(** The pie chart is built from the figures that are positive among
    remaining income, savings and deficit. It raises [ValueError] exactly
    when none is: the expenses use up the income, and neither savings nor
    deficit is positive, as on a ledger without any data. Otherwise it has
    a positive size for each of its one to three labels. *)
Theorem pie_chart_fails_iff (d : FinanceData) :
  (pie_chart d = inl ValueError
   <-> income d <= total_expenses (expenses d)
       /\ savings d <= 0 /\ deficit d <= 0)
  /\ (forall labels sizes,
        pie_chart d = inr (labels, sizes) ->
        List.length labels = List.length sizes
        /\ (1 <= List.length sizes <= 3)%nat
        /\ Forall (fun v => 0 < v) sizes).
Proof.
  unfold pie_chart, pie_entries. cbn [filter snd].
  destruct (Z.ltb_spec 0 (remaining_budget d)) as [R|R];
    destruct (Z.ltb_spec 0 (savings d)) as [S|S];
    destruct (Z.ltb_spec 0 (deficit d)) as [D|D];
    split;
    try (split; [discriminate|intros; exfalso; unfold remaining_budget in *; lia]);
    try (intros labels sizes [= <- <-]; cbn [map fst snd List.length];
         split; [reflexivity|]; split; [lia|];
         repeat (apply Forall_cons; [assumption|]); apply Forall_nil).
  - split; [intros _|reflexivity]. unfold remaining_budget in R. lia.
  - discriminate.
Qed.

(** ** The menu *)

Lemma final_after `{Numerals} `{TwoDecimals} (evs : list event) (s : session) :
  final (after evs s) = final s.
Proof. reflexivity. Qed.

(** A property of the world that the three operations of the menu keep is
    kept by a whole session, however it ends. With [with_expenses = false]
    the operation [add_expense] needs not keep it, and no line typed is
    [2]. *)
Lemma menu_loop_keeps `{Numerals} `{TwoDecimals} (P : World -> Prop)
  (with_expenses : bool) :
  (forall a w, P w -> P (add_income a w)) ->
  (forall g w, P w -> P (set_savings_goal g w)) ->
  (with_expenses = true ->
   forall c d a w, P w -> P (add_expense c d a true w)) ->
  forall inputs w,
    (with_expenses = false -> Forall (fun s => s <> lit "2") inputs) ->
    P w -> P (final (menu_loop inputs w)).
Proof.
  intros Hi Hg He inputs.
  assert (G : forall n inputs w,
            (List.length inputs <= n)%nat ->
            (with_expenses = false -> Forall (fun s => s <> lit "2") inputs) ->
            P w -> P (final (menu_loop inputs w))).
  2:{ intros w. now apply (G (List.length inputs)). }
  clear inputs. induction n as [|n IH]; intros inputs w Hn Hf Pw.
  { destruct inputs; [exact Pw|cbn in Hn; lia]. }
  destruct inputs as [|choice rest]; [exact Pw|].
  cbn [List.length] in Hn.
  assert (Hrest : with_expenses = false -> Forall (fun s => s <> lit "2") rest).
  { intros E. specialize (Hf E). now inversion Hf. }
  cbn [menu_loop]. rewrite final_after.
  destruct (Py.eqb choice (lit "1")).
  { destruct rest as [|text rest1]; [exact Pw|]. rewrite final_after.
    cbn [List.length] in Hn.
    assert (H1 : with_expenses = false -> Forall (fun s => s <> lit "2") rest1).
    { intros E. specialize (Hrest E). now inversion Hrest. }
    destruct (py_float text); rewrite final_after; apply IH;
      try lia; try assumption. now apply Hi. }
  destruct (Py.eqb choice (lit "2")) eqn:E2.
  { destruct with_expenses eqn:W.
    2:{ specialize (Hf eq_refl). inversion Hf as [|? ? N _]; subst.
        apply eqb_eq in E2. contradiction. }
    destruct rest as [|c rest1]; [exact Pw|]. rewrite final_after.
    destruct rest1 as [|d rest2]; [exact Pw|]. rewrite final_after.
    destruct rest2 as [|text rest3]; [exact Pw|]. rewrite final_after.
    cbn [List.length] in Hn.
    destruct (py_float text); rewrite final_after; apply IH;
      try lia; try discriminate; try assumption. now apply He. }
  destruct (Py.eqb choice (lit "3")).
  { destruct rest as [|text rest1]; [exact Pw|]. rewrite final_after.
    cbn [List.length] in Hn.
    assert (H1 : with_expenses = false -> Forall (fun s => s <> lit "2") rest1).
    { intros E. specialize (Hrest E). now inversion Hrest. }
    destruct (py_float text); rewrite final_after; apply IH;
      try lia; try assumption. now apply Hg. }
  destruct (Py.eqb choice (lit "4")).
  { rewrite final_after. apply IH; try lia; assumption. }
  destruct (Py.eqb choice (lit "5")).
  { destruct (visualize_expenses (self w)) as [bars [e|[labels sizes]]];
      [exact Pw|]. rewrite final_after. apply IH; try lia; assumption. }
  destruct (Py.eqb choice (lit "6")).
  { rewrite final_after. apply IH; try lia; assumption. }
  destruct (Py.eqb choice (lit "7")); [exact Pw|].
  rewrite final_after. apply IH; try lia; assumption.
Qed.

Lemma add_expense_keeps_mirror `{Numerals} (c d : str) (a : Z) (w : World) :
  Permutation (rows_of (database w)) (flatten (expenses (self w))) ->
  Permutation (rows_of (database (add_expense c d a true w)))
    (flatten (expenses (self (add_expense c d a true w)))).
Proof.
  intros P. unfold add_expense. destruct (0 <? a); [|exact P].
  unfold save_data_to_file. cbn [self database].
  destruct (adjust_keeps
              (save_expense_to_db c d a
                 (with_self
                    (set_expenses (append_item c (d, a) (expenses (self w)))
                       (self w)) w)))
    as (-> & ->).
  cbn [save_expense_to_db with_self set_expenses self database expenses].
  unfold db_insert, rows_of. rewrite map_app. simpl. fold (rows_of (database w)).
  rewrite flatten_append_item. now apply Permutation_app_tail.
Qed.

Lemma init_mirror `{Numerals} (w w1 : World) :
  FinanceData_init w = Returned w1 ->
  Permutation (rows_of (database w1)) (flatten (expenses (self w1)))
  /\ well_keyed (expenses (self w1)) = true.
Proof.
  intros R. apply read_data_returned in R as (_ & X & D). cbv zeta in X, D.
  cbn [with_self self expenses fresh] in X.
  rewrite X, D, rows_of_fold_insert. split.
  - symmetry. apply (flatten_fold_append _ []).
  - now apply well_keyed_fold_append.
Qed.

(** Whatever is typed, a run of [main] whose load did not raise ends with
    the table holding the entries of the dictionary, each once, and with a
    dictionary without repeated key or empty category: the menu adds every
    expense to both. *)
Theorem main_keeps_table_in_step `{Numerals} `{TwoDecimals} (inputs : list str)
  (w : World) :
  ending_of (main inputs w) <> LoadFailed ->
  Permutation (rows_of (database (final (main inputs w))))
    (flatten (expenses (self (final (main inputs w)))))
  /\ well_keyed (expenses (self (final (main inputs w)))) = true.
Proof.
  unfold main. destruct (FinanceData_init w) as [w1|e w1] eqn:R.
  2:{ intros N. now contradiction N. }
  intros _. apply init_mirror in R.
  apply (menu_loop_keeps
           (fun v => Permutation (rows_of (database v)) (flatten (expenses (self v)))
                     /\ well_keyed (expenses (self v)) = true) true);
    try assumption; try discriminate.
  - intros a v Pv. unfold add_income, save_data. now destruct (0 <? a).
  - intros g v Pv. unfold set_savings_goal, save_data. now destruct (0 <=? g).
  - intros _ c d a v [Pv Wv]. split; [now apply add_expense_keeps_mirror|].
    destruct (run_expenses (AddExpense c d a true) v) as [E|(c' & d' & a' & _ & E)];
      cbn [run] in E; rewrite E; [exact Wv|].
    now apply well_keyed_append_item.
Qed.

Lemma main_keeps_table_in_step_witness :
  let s := main (map lit ["2"; "Rent"; "Monthly Rent"; "1000"; "1"; "x"; "7"]%string)
             (save_data_to_file stocked) in
  Permutation (rows_of (database (final s))) (flatten (expenses (self (final s))))
  /\ well_keyed (expenses (self (final s))) = true.
Proof.
  apply (main_keeps_table_in_step
           (map lit ["2"; "Rent"; "Monthly Rent"; "1000"; "1"; "x"; "7"]%string)
           (save_data_to_file stocked)).
  vm_compute. discriminate.
Defined.

Lemma run_deficit `{Numerals} (m : mutation) (w : World) :
  0 <= deficit (self w) -> 0 <= deficit (self (run m w)).
Proof.
  intros Hd.
  assert (A : forall v, 0 <= deficit (self v) ->
                0 <= deficit (self (adjust_savings_if_needed v))).
  { intros v Hv.
    destruct (Z_lt_le_dec (income (self v)) (total_expenses (expenses (self v))))
      as [Hlt|Hle].
    - destruct (adjust_short v Hlt) as (-> & _). lia.
    - now rewrite adjust_covered. }
  destruct m as [a|g|c d a flag|]; cbn [run].
  - unfold add_income, save_data. now destruct (0 <? a).
  - unfold set_savings_goal, save_data. now destruct (0 <=? g).
  - destruct (Z_lt_le_dec 0 a) as [Ha|Ha].
    + rewrite add_expense_self by assumption.
      set (w0 := with_self _ w). exact (A w0 Hd).
    + now rewrite add_expense_ignored.
  - now apply A.
Qed.

Lemma run_original_savings `{Numerals} (m : mutation) (w : World) :
  original_savings (self (run m w)) = original_savings (self w).
Proof.
  destruct m as [a|g|c d a flag|]; cbn [run].
  - unfold add_income, save_data. now destruct (0 <? a).
  - unfold set_savings_goal, save_data. now destruct (0 <=? g).
  - destruct (Z_lt_le_dec 0 a) as [Ha|Ha].
    + now destruct (add_expense_effect c d a flag w Ha) as (_ & _ & _ & _ & ->).
    + now rewrite add_expense_ignored.
  - unfold adjust_savings_if_needed, save_data. cbv zeta.
    destruct (_ <? 0); [|reflexivity]. cbn. now destruct (_ <? 0).
Qed.

Lemma run_accounts `{Numerals} (m : mutation) (w1 v : World) :
  income (self w1) <= income (self v)
  /\ 0 <= deficit (self v)
  /\ original_savings (self v) = savings (self w1)
  /\ (0 <= savings (self w1) -> 0 <= savings (self v) <= savings (self w1)) ->
  income (self w1) <= income (self (run m v))
  /\ 0 <= deficit (self (run m v))
  /\ original_savings (self (run m v)) = savings (self w1)
  /\ (0 <= savings (self w1) ->
      0 <= savings (self (run m v)) <= savings (self w1)).
Proof.
  intros (I & D & O & S).
  pose proof (run_income m v) as I'.
  pose proof (run_deficit m v D) as D'.
  pose proof (run_original_savings m v) as O'.
  split; [lia|]. split; [exact D'|]. split; [congruence|].
  intros Hs. destruct (S Hs) as [S0 S1].
  pose proof (run_savings m v S0). lia.
Qed.

(** The accounts over a whole run of [main] whose load returned [w1]:
    whatever is typed, the income ends at least as high as loaded, the
    deficit is not negative, the original savings are still the loaded
    savings, and if the loaded savings are not negative the savings end
    between 0 and them. *)
Theorem main_accounts `{Numerals} `{TwoDecimals} (inputs : list str)
  (w w1 : World) :
  FinanceData_init w = Returned w1 ->
  let d := self (final (main inputs w)) in
  income (self w1) <= income d
  /\ 0 <= deficit d
  /\ original_savings d = savings (self w1)
  /\ (0 <= savings (self w1) -> 0 <= savings d <= savings (self w1)).
Proof.
  intros R. unfold main. rewrite R. cbv zeta.
  assert (D1 : deficit (self w1) = 0 /\ original_savings (self w1) = savings (self w1)).
  { clear -R. unfold FinanceData_init in R.
    apply load_fields in R as (_ & S & _ & D & O).
    unfold file_lines in S.
    cbn [with_self text_file self deficit savings original_savings fresh]
      in S, D, O.
    destruct (text_file w); [now split|]. split; [exact D|].
    now rewrite O, S. }
  destruct D1 as [D1 O1].
  apply (menu_loop_keeps
           (fun v => income (self w1) <= income (self v)
                     /\ 0 <= deficit (self v)
                     /\ original_savings (self v) = savings (self w1)
                     /\ (0 <= savings (self w1) ->
                         0 <= savings (self v) <= savings (self w1))) true);
    try discriminate.
  - intros a v Pv. exact (run_accounts (AddIncome a) w1 v Pv).
  - intros g v Pv. exact (run_accounts (SetSavingsGoal g) w1 v Pv).
  - intros _ c d0 a v Pv. exact (run_accounts (AddExpense c d0 a true) w1 v Pv).
  - split; [lia|]. split; [lia|]. split; [exact O1|]. intros Hs. lia.
Qed.

Lemma main_accounts_witness :
  let w := save_data_to_file stocked in
  let d := self (final (main (map lit ["2"; "Rent"; "Monthly Rent"; "5000";
                                       "1"; "100"; "7"]%string) w)) in
  income (self (world_of (FinanceData_init w))) <= income d
  /\ 0 <= deficit d
  /\ original_savings d = savings (self (world_of (FinanceData_init w)))
  /\ (0 <= savings (self (world_of (FinanceData_init w))) ->
      0 <= savings d <= savings (self (world_of (FinanceData_init w)))).
Proof.
  intros w.
  apply (main_accounts
           (map lit ["2"; "Rent"; "Monthly Rent"; "5000"; "1"; "100"; "7"]%string)
           w (world_of (FinanceData_init w))).
  vm_compute. reflexivity.
Defined.

Lemma load_keeps_file `{Numerals} (w w1 : World) :
  read_data_from_file w = Returned w1 -> text_file w1 = text_file w.
Proof.
  unfold read_data_from_file. destruct (text_file w); [|now intros [= <-]].
  destruct (read_lines _ _) as [[e st]|st]; [discriminate|now intros [= <-]].
Qed.

(** What a load that returns makes of the object depends on the file
    alone, not on the table. *)
Lemma init_by_file `{Numerals} (w v w1 : World) :
  text_file v = text_file w ->
  FinanceData_init w = Returned w1 ->
  FinanceData_init v = Returned w1.
Proof.
  unfold FinanceData_init, read_data_from_file, with_self.
  cbn [text_file self]. intros ->.
  destruct (text_file w); [|trivial].
  destruct (read_lines _ _) as [[e st]|st]; [discriminate|trivial].
Qed.

(** A run of [main] in which [2] is never typed leaves no trace: file,
    table, expenses, savings and deficit end as loaded, whatever income
    or goal was entered, and the next start builds the same object as
    this one did. *)
Theorem session_without_expense_leaves_no_trace `{Numerals} `{TwoDecimals}
  (inputs : list str) (w w1 : World) :
  FinanceData_init w = Returned w1 ->
  Forall (fun s => s <> lit "2") inputs ->
  let v := final (main inputs w) in
  text_file v = text_file w
  /\ database v = database w1
  /\ expenses (self v) = expenses (self w1)
  /\ savings (self v) = savings (self w1)
  /\ deficit (self v) = deficit (self w1)
  /\ FinanceData_init v = Returned w1.
Proof.
  intros R F. unfold main. rewrite R. cbv zeta.
  assert (T : text_file w1 = text_file w).
  { unfold FinanceData_init in R. now apply load_keeps_file in R. }
  assert (P : text_file (final (menu_loop inputs w1)) = text_file w1
              /\ database (final (menu_loop inputs w1)) = database w1
              /\ expenses (self (final (menu_loop inputs w1))) = expenses (self w1)
              /\ savings (self (final (menu_loop inputs w1))) = savings (self w1)
              /\ deficit (self (final (menu_loop inputs w1))) = deficit (self w1)).
  { apply (menu_loop_keeps
             (fun v => text_file v = text_file w1
                       /\ database v = database w1
                       /\ expenses (self v) = expenses (self w1)
                       /\ savings (self v) = savings (self w1)
                       /\ deficit (self v) = deficit (self w1)) false);
      try discriminate; try (now repeat split); try (intros _; exact F).
    - intros a v Pv. unfold add_income, save_data. now destruct (0 <? a).
    - intros g v Pv. unfold set_savings_goal, save_data. now destruct (0 <=? g). }
  destruct P as (Pf & Pd & Px & Ps & Pdf).
  repeat split; try congruence.
  apply (init_by_file w); [congruence|exact R].
Qed.

Lemma session_without_expense_leaves_no_trace_witness :
  let w := save_data_to_file stocked in
  let w1 := world_of (FinanceData_init w) in
  let v := final (main (map lit ["1"; "250"; "3"; "9000"; "4"; "7"]%string) w) in
  text_file v = text_file w
  /\ database v = database w1
  /\ expenses (self v) = expenses (self w1)
  /\ savings (self v) = savings (self w1)
  /\ deficit (self v) = deficit (self w1)
  /\ FinanceData_init v = Returned w1.
Proof.
  intros w w1.
  apply (session_without_expense_leaves_no_trace
           (map lit ["1"; "250"; "3"; "9000"; "4"; "7"]%string) w w1).
  - vm_compute. reflexivity.
  - repeat (apply Forall_cons; [intros E; vm_compute in E; discriminate|]).
    apply Forall_nil.
Defined.

Lemma after_after (a b : list event) (s : session) :
  after a (after b s) = after (a ++ b) s.
Proof. unfold after. cbn. now rewrite app_assoc. Qed.

(** The menu reports success for a number it ignores: an income or an
    expense that is not positive, or a negative goal, is answered with
    the success message, and the session goes on from the same world. *)
Theorem success_reported_when_ignored `{Numerals} `{TwoDecimals}
  (text goal_text category description : str) (amount goal : Z)
  (rest : list str) (w : World) :
  py_float text = Some amount ->
  amount <= 0 ->
  py_float goal_text = Some goal ->
  goal < 0 ->
  menu_loop (lit "1" :: text :: rest) w
  = after (menu ++ [Input (lit "Enter the income amount: ");
                    Print (lit "Income added successfully.")])
      (menu_loop rest w)
  /\ menu_loop (lit "2" :: category :: description :: text :: rest) w
     = after (menu ++ [Input (lit "Enter expense category: ");
                       Input (lit "Enter expense description: ");
                       Input (lit "Enter the expense amount: ");
                       Print (lit "Expense added successfully.")])
         (menu_loop rest w)
  /\ menu_loop (lit "3" :: goal_text :: rest) w
     = after (menu ++ [Input (lit "Enter your savings goal: ");
                       Print (lit "Savings goal set successfully.")])
         (menu_loop rest w).
Proof.
  intros Pa Ha Pg Hg.
  assert (Ia : add_income amount w = w).
  { unfold add_income. destruct (Z.ltb_spec 0 amount); [lia|reflexivity]. }
  assert (Ig : set_savings_goal goal w = w).
  { unfold set_savings_goal. destruct (Z.leb_spec 0 goal); [lia|reflexivity]. }
  repeat split.
  - cbn [menu_loop]. change (Py.eqb (lit "1") (lit "1")) with true. cbn iota.
    now rewrite Pa, Ia, !after_after.
  - cbn [menu_loop]. change (Py.eqb (lit "2") (lit "1")) with false.
    change (Py.eqb (lit "2") (lit "2")) with true. cbn iota.
    now rewrite Pa, add_expense_ignored, !after_after.
  - cbn [menu_loop]. change (Py.eqb (lit "3") (lit "1")) with false.
    change (Py.eqb (lit "3") (lit "2")) with false.
    change (Py.eqb (lit "3") (lit "3")) with true. cbn iota.
    now rewrite Pg, Ig, !after_after.
Qed.

Lemma success_reported_when_ignored_witness :
  menu_loop (lit "1" :: lit "-5" :: [lit "7"]) stocked
  = after (menu ++ [Input (lit "Enter the income amount: ");
                    Print (lit "Income added successfully.")])
      (menu_loop [lit "7"] stocked)
  /\ menu_loop (lit "2" :: lit "Rent" :: lit "Monthly Rent" :: lit "-5"
                  :: [lit "7"]) stocked
     = after (menu ++ [Input (lit "Enter expense category: ");
                       Input (lit "Enter expense description: ");
                       Input (lit "Enter the expense amount: ");
                       Print (lit "Expense added successfully.")])
         (menu_loop [lit "7"] stocked)
  /\ menu_loop (lit "3" :: lit "-1" :: [lit "7"]) stocked
     = after (menu ++ [Input (lit "Enter your savings goal: ");
                       Print (lit "Savings goal set successfully.")])
         (menu_loop [lit "7"] stocked).
Proof.
  apply (success_reported_when_ignored (lit "-5") (lit "-1") (lit "Rent")
           (lit "Monthly Rent") (-5) (-1) [lit "7"] stocked);
    (reflexivity || lia).
Defined.

Lemma pie_chart_nothing_positive (d : FinanceData) :
  income d <= total_expenses (expenses d) ->
  savings d <= 0 ->
  deficit d <= 0 ->
  pie_chart d = inl ValueError.
Proof.
  intros I S D. unfold pie_chart, pie_entries, remaining_budget. cbn [filter snd].
  destruct (Z.ltb_spec 0 (Z.max (income d - total_expenses (expenses d)) 0));
    [lia|].
  destruct (Z.ltb_spec 0 (savings d)); [lia|].
  destruct (Z.ltb_spec 0 (deficit d)); [lia|reflexivity].
Qed.

(** Choice 5 ends the program when the ledger has nothing positive to
    chart, as on a first run: the bar chart is shown, the pie chart raises
    [ValueError], which [main] does not catch, and nothing typed after it
    is read. *)
Theorem chart_failure_ends_session `{Numerals} `{TwoDecimals} (rest : list str)
  (w : World) :
  income (self w) <= total_expenses (expenses (self w)) ->
  savings (self w) <= 0 ->
  deficit (self w) <= 0 ->
  menu_loop (lit "5" :: rest) w
  = mkSession ChartFailed w (menu ++ [ShowBars (bar_plots (expenses (self w)))]).
Proof.
  intros I S D. cbn [menu_loop].
  change (Py.eqb (lit "5") (lit "1")) with false.
  change (Py.eqb (lit "5") (lit "2")) with false.
  change (Py.eqb (lit "5") (lit "3")) with false.
  change (Py.eqb (lit "5") (lit "4")) with false.
  change (Py.eqb (lit "5") (lit "5")) with true. cbn iota.
  unfold visualize_expenses. now rewrite pie_chart_nothing_positive.
Qed.

Lemma chart_failure_ends_session_witness :
  menu_loop (lit "5" :: [lit "1"; lit "500"; lit "7"]) empty_world
  = mkSession ChartFailed empty_world
      (menu ++ [ShowBars (bar_plots (expenses (self empty_world)))]).
Proof.
  apply (chart_failure_ends_session [lit "1"; lit "500"; lit "7"] empty_world);
    vm_compute; discriminate.
Defined.

(** A number that [float] rejects abandons the operation: the menu prints
    its complaint and goes on from the same world; for an expense the
    category and the description typed before the amount are dropped with
    it. *)
Theorem invalid_number_abandons `{Numerals} `{TwoDecimals}
  (text category description : str) (rest : list str) (w : World) :
  py_float text = None ->
  menu_loop (lit "1" :: text :: rest) w
  = after (menu ++ [Input (lit "Enter the income amount: "); invalid_input])
      (menu_loop rest w)
  /\ menu_loop (lit "2" :: category :: description :: text :: rest) w
     = after (menu ++ [Input (lit "Enter expense category: ");
                       Input (lit "Enter expense description: ");
                       Input (lit "Enter the expense amount: ");
                       invalid_input])
         (menu_loop rest w)
  /\ menu_loop (lit "3" :: text :: rest) w
     = after (menu ++ [Input (lit "Enter your savings goal: "); invalid_input])
         (menu_loop rest w).
Proof.
  intros P. repeat split.
  - cbn [menu_loop]. change (Py.eqb (lit "1") (lit "1")) with true. cbn iota.
    now rewrite P, !after_after.
  - cbn [menu_loop]. change (Py.eqb (lit "2") (lit "1")) with false.
    change (Py.eqb (lit "2") (lit "2")) with true. cbn iota.
    now rewrite P, !after_after.
  - cbn [menu_loop]. change (Py.eqb (lit "3") (lit "1")) with false.
    change (Py.eqb (lit "3") (lit "2")) with false.
    change (Py.eqb (lit "3") (lit "3")) with true. cbn iota.
    now rewrite P, !after_after.
Qed.

Lemma invalid_number_abandons_witness :
  menu_loop (lit "1" :: lit "ten" :: [lit "7"]) stocked
  = after (menu ++ [Input (lit "Enter the income amount: "); invalid_input])
      (menu_loop [lit "7"] stocked)
  /\ menu_loop (lit "2" :: lit "Rent" :: lit "Monthly Rent" :: lit "ten"
                  :: [lit "7"]) stocked
     = after (menu ++ [Input (lit "Enter expense category: ");
                       Input (lit "Enter expense description: ");
                       Input (lit "Enter the expense amount: ");
                       invalid_input])
         (menu_loop [lit "7"] stocked)
  /\ menu_loop (lit "3" :: lit "ten" :: [lit "7"]) stocked
     = after (menu ++ [Input (lit "Enter your savings goal: "); invalid_input])
         (menu_loop [lit "7"] stocked).
Proof.
  apply (invalid_number_abandons (lit "ten") (lit "Rent") (lit "Monthly Rent")
           [lit "7"] stocked).
  reflexivity.
Defined.
